(** * Jugaad authentication backend: OTP registry and credential workflows

    A shallow embedding of [server.js] (together with the collaborators
    [db.js] and [mailer.js]) and the properties of its handlers. *)

From Stdlib Require Import ZArith Lia Bool Ascii String SpecFloat.
From stdpp Require Import base strings list gmap.

Set Warnings "-register-all".

(** * Part I: the program *)

(** ** Binary64 arithmetic used by [generateOtp] *)

Module F64.
Local Open Scope Z_scope.

(** A finite, non-negative JS number [x] is held as the integer
    [x * 2^1074]: 2^-1074 is the smallest positive binary64 value, so every
    such number is an integer count of it.  Results of 2^1024 and above
    (where the machine overflows to Infinity) are outside this model. *)
Definition one : Z := 2 ^ 1074.

Definition of_int (k : Z) : Z := k * one.

(** Round to the nearest multiple of [2^s], ties to the even multiple. *)
Definition round_to (s n : Z) : Z :=
  let q := n / 2 ^ s in
  let r := n mod 2 ^ s in
  if 2 * r <? 2 ^ s then q * 2 ^ s
  else if 2 ^ s <? 2 * r then (q + 1) * 2 ^ s
  else if Z.even q then q * 2 ^ s else (q + 1) * 2 ^ s.

(** Rounding of an exact value [n * 2^-1074] to 53 significant bits. *)
Definition round53 (n : Z) : Z := round_to (Z.max (Z.log2 n - 52) 0) n.

(** The binary64 values: those that rounding leaves alone. *)
Definition is_double (a : Z) : Prop := 0 <= a /\ round53 a = a.

(** [a + b] *)
Definition add (a b : Z) : Z := round53 (a + b).

(** [a * b]: the exact product counts units of 2^-2148; below 2^-1022 the
    spacing of the doubles stays 2^-1074 (subnormals). *)
Definition mul (a b : Z) : Z :=
  round_to (Z.max (Z.log2 (a * b) - 52) 1074) (a * b) / one.

(** [Math.floor] of a non-negative number, as an integer. *)
Definition floor (a : Z) : Z := a / one.

(** The same numbers in the library's specification of IEEE 754 arithmetic,
    at the binary64 precision, to compare the operations above with. *)
Definition to_spec (a : Z) : spec_float :=
  binary_normalize 53 1024 a (-1074) false.

Definition of_spec (x : spec_float) : Z :=
  match x with
  | S754_zero _ => 0
  | S754_finite false m e => Z.pos m * 2 ^ (e + 1074)
  | _ => -1
  end.

Definition spec_add (a b : Z) : Z :=
  of_spec (SFadd 53 1024 (to_spec a) (to_spec b)).

Definition spec_mul (a b : Z) : Z :=
  of_spec (SFmul 53 1024 (to_spec a) (to_spec b)).

End F64.

(** ** JavaScript values *)

Module JS.
Local Open Scope Z_scope.

(** What the body parsers hand to a handler.  Numbers are the
    integer-valued ones; [JObj] is an object that is not an array (a parsed
    object, or a built-in function or object), whose own properties the
    handlers never read. *)
Inductive jsval : Type :=
| JUndefined
| JNull
| JBool (b : bool)
| JNum (n : Z)
| JStr (s : string)
| JArr (l : list jsval)
| JObj.

(** ToBoolean: what [!v], [v || w] and [v ? a : b] test. *)
Definition truthy (v : jsval) : bool :=
  match v with
  | JUndefined | JNull => false
  | JBool b => b
  | JNum n => negb (n =? 0)
  | JStr s => negb (String.eqb s "")
  | JArr _ | JObj => true
  end.

(** [a || b] *)
Definition js_or (a b : jsval) : jsval := if truthy a then a else b.

(** [a === b].  Arrays and objects are compared by identity, and the two
    operands of every comparison in the handlers come from different places,
    so they are never the same object. *)
Definition strict_eq (a b : jsval) : bool :=
  match a, b with
  | JUndefined, JUndefined => true
  | JNull, JNull => true
  | JBool x, JBool y => Bool.eqb x y
  | JNum x, JNum y => x =? y
  | JStr x, JStr y => String.eqb x y
  | _, _ => false
  end.

Definition digit_char (d : Z) : ascii := ascii_of_nat (48 + Z.to_nat d).

(** Decimal digits of [n >= 0], most significant first, pushed on [acc]. *)
Fixpoint digits_go (fuel : nat) (n : Z) (acc : string) : string :=
  match fuel with
  | O => acc
  | S fuel' =>
      let acc' := String (digit_char (n mod 10)) acc in
      if n <? 10 then acc' else digits_go fuel' (n / 10) acc'
  end.

(** [Number.prototype.toString] on an integer-valued number (below 10^21 in
    absolute value, where the decimal notation is used). *)
Definition number_toString (n : Z) : string :=
  if n <? 0
  then String "-" (digits_go (S (Z.to_nat (Z.log2 (- n)))) (- n) "")
  else digits_go (S (Z.to_nat (Z.log2 n))) n "".

(** ToString; an array prints as its elements joined by commas, with
    [undefined] and [null] elements printing as nothing, and an object as
    [Object.prototype.toString] prints it (an object that has a [toString] or
    [valueOf] of its own is not followed). *)
Fixpoint toString (v : jsval) : string :=
  match v with
  | JUndefined => "undefined"
  | JNull => "null"
  | JBool true => "true"
  | JBool false => "false"
  | JNum n => number_toString n
  | JStr s => s
  | JArr l =>
      (fix join (l : list jsval) : string :=
         match l with
         | [] => ""
         | x :: l' =>
             let sx := match x with
                       | JUndefined | JNull => ""
                       | _ => toString x
                       end in
             match l' with
             | [] => sx
             | _ :: _ => sx +:+ "," +:+ join l'
             end
         end) l
  | JObj => "[object Object]"
  end%string.

(** [array.join(',')] *)
Definition join_comma (l : list jsval) : string := toString (JArr l).

(** [s.split(',')] *)
Fixpoint split_comma (s : string) : list string :=
  match s with
  | EmptyString => [EmptyString]
  | String c s' =>
      if Ascii.eqb c ","
      then EmptyString :: split_comma s'
      else match split_comma s' with
           | h :: t => String c h :: t
           | [] => [String c EmptyString]
           end
  end.

(** [strings.filter(Boolean)] *)
Definition filter_Boolean (l : list string) : list string :=
  List.filter (fun s => truthy (JStr s)) l.

(** [Array.isArray(v)] *)
Definition isArray (v : jsval) : bool :=
  match v with JArr _ => true | _ => false end.

End JS.
Import JS.

Local Open Scope Z_scope.

(** [generateOtp], with [r] the value drawn by [Math.random()]:
    [Math.floor(100000 + Math.random() * 900000).toString()] *)
Definition generateOtp (r : Z) : string :=
  number_toString
    (F64.floor (F64.add (F64.of_int 100000) (F64.mul r (F64.of_int 900000)))).

(** ** The OTP registry: [const otps = {}] *)

(** [{ otp, expiresAt }] *)
Record OtpEntry : Type := { otp : string; expiresAt : Z }.

(** The object [otps] is used as a map from identity to entry, and held as
    one: a binding is an own property of [otps] under that key, except for the
    key ["__proto__"].  On that key assignment goes through the accessor that
    [otps] inherits from [Object.prototype]: it installs the assigned object
    as the prototype of [otps] and creates no own property, and reading the
    key gives that object back.  The binding of ["__proto__"], when there is
    one, stands for the installed prototype. *)
Abbreviation Registry := (gmap string OtpEntry).

(** [{}] *)
Definition empty_registry : Registry := ∅.

(** What a property read [otps[key]] can yield. *)
Inductive slot : Type :=
| SlotEntry (e : OtpEntry)
| SlotValue (v : jsval).

(** The data properties of [Object.prototype]. *)
Definition Object_prototype_keys : list string :=
  [ "constructor"; "hasOwnProperty"; "isPrototypeOf"; "propertyIsEnumerable";
    "toLocaleString"; "toString"; "valueOf"; "__defineGetter__";
    "__defineSetter__"; "__lookupGetter__"; "__lookupSetter__" ]%string.

Definition Object_prototype_get (key : string) : slot :=
  if existsb (String.eqb key) Object_prototype_keys
  then SlotValue JObj else SlotValue JUndefined.

(** [otps[key]]: the entry stored under the key if there is one; otherwise
    what the prototype chain gives: [Object.prototype] itself for
    ["__proto__"], the two fields of an installed prototype, the built-ins of
    [Object.prototype], or [undefined]. *)
Definition get_prop (o : Registry) (key : string) : slot :=
  match o !! key with
  | Some e => SlotEntry e
  | None =>
      if String.eqb key "__proto__" then SlotValue JObj
      else
        match o !! "__proto__"%string with
        | Some e =>
            if String.eqb key "otp" then SlotValue (JStr (otp e))
            else if String.eqb key "expiresAt" then SlotValue (JNum (expiresAt e))
            else Object_prototype_get key
        | None => Object_prototype_get key
        end
  end.

(** [otps[key] = e] *)
Definition set_prop (o : Registry) (key : string) (e : OtpEntry) : Registry :=
  <[key := e]> o.

(** [delete otps[key]]: removes the own property under the key, if there is
    one; there is never one under ["__proto__"]. *)
Definition delete_prop (o : Registry) (key : string) : Registry :=
  if String.eqb key "__proto__" then o else delete key o.

Definition slot_truthy (r : slot) : bool :=
  match r with
  | SlotEntry _ => true
  | SlotValue v => truthy v
  end.

(** [record.otp]; primitives and built-ins have no such property. *)
Definition slot_otp (r : slot) : jsval :=
  match r with
  | SlotEntry e => JStr (otp e)
  | SlotValue _ => JUndefined
  end.

(** [record.expiresAt] ([None] is [undefined]). *)
Definition slot_expiresAt (r : slot) : option Z :=
  match r with
  | SlotEntry e => Some (expiresAt e)
  | SlotValue _ => None
  end.

(** [x < now] for [x] a number or [undefined] (which converts to NaN). *)
Definition lt_number (x : option Z) (now : Z) : bool :=
  match x with
  | Some a => a <? now
  | None => false
  end.

(** The condition of lines 86 and 163:
    [!record || record.otp !== otp || record.expiresAt < Date.now()] *)
Definition gate_rejects (record : slot) (otp : jsval) (now : Z) : bool :=
  negb (slot_truthy record)
  || negb (strict_eq (slot_otp record) otp)
  || lt_number (slot_expiresAt record) now.

(** ** Storage *)

(** Modelled from the spec: the schema of table [users] is not part of the
    sources.  A row holds what the statements of [server.js] write to it: the
    serial [id], [email], [password_hash], ten scalar profile columns that keep
    the parameter they were given ([JNull] for SQL null), and [work_tags],
    comma-separated text or null.  A new account has no profile field
    populated. *)
Module Row.
Record t : Type := {
  id : Z;
  email : string;
  password_hash : string;
  name : jsval;
  phone : jsval;
  age : jsval;
  age_group : jsval;
  dob : jsval;
  country : jsval;
  state : jsval;
  city : jsval;
  pincode : jsval;
  role : jsval;
  work_tags : option string
}.
End Row.

(** A message handed to the mail transport by [sendOtpEmail]. *)
Record Mail : Type := { mail_to : string; subject : string; text : string }.

(** The process ([otps]) and what it talks to: the tables [users] and
    [login_events] with the sequence behind [users.id], and the messages
    handed to the transport. *)
Record World : Type := {
  otps : Registry;
  users : list Row.t;
  login_events : list Z;
  users_id_seq : Z;
  outbox : list Mail
}.

(** ** Handlers as state-passing programs that may throw *)

(** The state a handler runs on: the world, and for each awaited call to a
    collaborator still to come whether its promise rejects. *)
Definition St : Type := World * list bool.

Inductive outcome (A : Type) : Type :=
| Done (a : A)
| Thrown.
Arguments Done {A} a.
Arguments Thrown {A}.

Definition M (A : Type) : Type := St -> outcome A * St.

Definition ret {A} (a : A) : M A := fun s => (Done a, s).

Definition bind {A B} (m : M A) (k : A -> M B) : M B :=
  fun s =>
    match m s with
    | (Done a, s') => k a s'
    | (Thrown, s') => (Thrown, s')
    end.

(** [try { m } catch (err) { h }]: what [m] did before throwing stays done. *)
Definition try_catch {A} (m : M A) (h : M A) : M A :=
  fun s =>
    match m s with
    | (Done a, s') => (Done a, s')
    | (Thrown, s') => h s'
    end.

Definition get_world : M World := fun s => (Done (fst s), s).

Definition put_world (w : World) : M unit := fun s => (Done tt, (w, snd s)).

(** [await] on a collaborator's promise: rejects when the next flag says so;
    with no flag left the call succeeds. *)
Definition await : M unit :=
  fun s =>
    match snd s with
    | [] => (Done tt, s)
    | true :: fs => (Thrown, (fst s, fs))
    | false :: fs => (Done tt, (fst s, fs))
    end.

Notation "'let*' x ':=' m 'in' k" := (bind m (fun x => k))
  (at level 10, x name, m at level 100, k at level 200).

(** ** Collaborators *)

Definition with_otps (w : World) (o : Registry) : World :=
  {| otps := o; users := users w; login_events := login_events w;
     users_id_seq := users_id_seq w; outbox := outbox w |}.

Definition with_users (w : World) (us : list Row.t) (seq : Z) : World :=
  {| otps := otps w; users := us; login_events := login_events w;
     users_id_seq := seq; outbox := outbox w |}.

Definition with_login_events (w : World) (evs : list Z) : World :=
  {| otps := otps w; users := users w; login_events := evs;
     users_id_seq := users_id_seq w; outbox := outbox w |}.

Definition with_outbox (w : World) (ms : list Mail) : World :=
  {| otps := otps w; users := users w; login_events := login_events w;
     users_id_seq := users_id_seq w; outbox := ms |}.

(** The first row of [select ... from users where email = ${email}], if the
    query has one. *)
Definition account (w : World) (email : string) : option Row.t :=
  List.find (fun u => String.eqb (Row.email u) email) (users w).

(** [getUserByEmail] *)
Definition getUserByEmail (email : string) : M (option Row.t) :=
  let* _ := await in
  let* w := get_world in
  ret (account w email).

(** The row an insert of [(email, password_hash)] creates: the id comes from
    the sequence, every other column is null. *)
Definition new_account (id : Z) (email passwordHash : string) : Row.t :=
  {| Row.id := id; Row.email := email; Row.password_hash := passwordHash;
     Row.name := JNull; Row.phone := JNull; Row.age := JNull;
     Row.age_group := JNull; Row.dob := JNull; Row.country := JNull;
     Row.state := JNull; Row.city := JNull; Row.pincode := JNull;
     Row.role := JNull; Row.work_tags := None |}.

(** [nextval] on the sequence behind [users.id]: the value is taken for
    good, a sequence is not set back when the statement that drew from it
    fails. *)
Definition nextval : M unit :=
  let* w := get_world in
  put_world (with_users w (users w) (users_id_seq w + 1)).

(** [await] on a statement that can fail half-way: when its promise rejects,
    [done] is what the statement has done by then. *)
Definition await_leaving (done : M unit) : M unit :=
  fun s =>
    match snd s with
    | true :: _ => (let* _ := done in await) s
    | _ => await s
    end.

(** [insert into users (email, password_hash) values (...) returning id, email].
    When the promise rejects no row has been added, and the statement has
    either not run at all or failed while running; in the second case
    ([taken]) it has drawn its id from the sequence. *)
Definition insert_user (taken : bool) (email passwordHash : string)
  : M Row.t :=
  let* _ := await_leaving (if taken then nextval else ret tt) in
  let* w := get_world in
  let user := new_account (users_id_seq w) email passwordHash in
  let* _ := put_world (with_users w (users w ++ [user]) (users_id_seq w + 1)) in
  ret user.

Definition set_password_hash (newHash : string) (u : Row.t) : Row.t :=
  {| Row.id := Row.id u; Row.email := Row.email u;
     Row.password_hash := newHash;
     Row.name := Row.name u; Row.phone := Row.phone u; Row.age := Row.age u;
     Row.age_group := Row.age_group u; Row.dob := Row.dob u;
     Row.country := Row.country u; Row.state := Row.state u;
     Row.city := Row.city u; Row.pincode := Row.pincode u;
     Row.role := Row.role u; Row.work_tags := Row.work_tags u |}.

(** [update users set ... where id = ${id}] *)
Definition update_where_id (id : Z) (f : Row.t -> Row.t) (us : list Row.t)
  : list Row.t :=
  List.map (fun u => if Row.id u =? id then f u else u) us.

(** [update users set password_hash = ${newHash} where id = ${id}] *)
Definition update_password_hash (newHash : string) (id : Z) : M unit :=
  let* _ := await in
  let* w := get_world in
  put_world
    (with_users w (update_where_id id (set_password_hash newHash) (users w))
       (users_id_seq w)).

(** [insert into login_events (user_id) values (${id})] *)
Definition insert_login_event (id : Z) : M unit :=
  let* _ := await in
  let* w := get_world in
  put_world (with_login_events w (login_events w ++ [id])).

(** [mailOptions] of [mailer.js] *)
Definition mailOptions (to otp : string) : Mail :=
  {| mail_to := to;
     subject := "Your Jugaad OTP";
     text := "Your Jugaad verification code is " +:+ otp
             +:+ ". It is valid for 5 minutes." |}.

(** [sendOtpEmail] of [mailer.js]: hands the message to the transport and
    awaits it. *)
Definition sendOtpEmail (to otp : string) : M unit :=
  let mailOptions := mailOptions to otp in
  let* w := get_world in
  let* _ := put_world (with_outbox w (outbox w ++ [mailOptions])) in
  await.

(** The library [bcrypt]: [hash(data, rounds)] draws a salt and hashes,
    [compare(data, encrypted)] verifies. *)
Class Bcrypt : Type := {
  bcrypt_hash : string -> Z -> string -> string;
  bcrypt_compare : string -> string -> bool
}.

(** What the handlers rely on from it: a hash verifies the plaintext it was
    made from, and is not that plaintext. *)
Class BcryptSound (B : Bcrypt) : Prop := {
  compare_hash : forall data rounds salt,
    bcrypt_compare data (bcrypt_hash data rounds salt) = true;
  hash_not_plaintext : forall data rounds salt,
    bcrypt_hash data rounds salt <> data
}.

(** [bcrypt.hash(data, rounds)], with the salt it draws. *)
Definition hash {B : Bcrypt} (data : string) (rounds : Z) (salt : string)
  : M string :=
  let* _ := await in
  ret (bcrypt_hash data rounds salt).

(** [bcrypt.compare(data, encrypted)] *)
Definition compare {B : Bcrypt} (data encrypted : string) : M bool :=
  let* _ := await in
  ret (bcrypt_compare data encrypted).

(** ** Requests and responses *)

(** The body of [POST /api/profile]. *)
Module Profile.
Record t : Type := {
  email : option string;
  name : jsval;
  phone : jsval;
  age : jsval;
  ageGroup : jsval;
  dob : jsval;
  country : jsval;
  state : jsval;
  city : jsval;
  pincode : jsval;
  role : jsval;
  workTags : jsval
}.
End Profile.

(** [safeUser] of [GET /api/user]. *)
Module Safe.
Record t : Type := {
  id : Z;
  email : string;
  name : jsval;
  phone : jsval;
  age : jsval;
  ageGroup : jsval;
  dob : jsval;
  country : jsval;
  state : jsval;
  city : jsval;
  pincode : jsval;
  role : jsval;
  workTags : list string
}.
End Safe.

Inductive Body : Type :=
| Message (message : string)
| MessageEmail (message : string) (email : string)
| UserBody (user : Safe.t)
| StatsBody (totalUsers helpers hirers readyToServe : Z).

(** [res.status(s).json(b)]; [res.json(b)] has status 200. *)
Record Response : Type := { status : Z; body : Body }.

Definition json (b : Body) : Response := {| status := 200; body := b |}.

Definition status_json (s : Z) (b : Body) : Response :=
  {| status := s; body := b |}.

(** What a request meets besides the world: the clock [Date.now()] (an
    integer number of milliseconds, of magnitude at most 8.64e15, so that the
    additions and comparisons on it are exact), the draw of [Math.random()]
    (a number of [F64]), the salt [bcrypt] draws, which awaited calls
    reject, and whether an insert that rejects has by then drawn its id from
    the sequence. *)
Record Env : Type := {
  Date_now : Z;
  Math_random : Z;
  salt : string;
  rejects : list bool;
  nextval_taken : bool
}.

(** Identities and passwords are strings (spec, section 3), so the fields
    [email], [password] and [newPassword] of a body are held as a string, or
    [None] when the field is absent; the submitted code and the profile
    fields are arbitrary values.  [given] keeps what the test [!field] lets
    through: a field that is present and not empty. *)
Definition given (field : option string) : option string :=
  match field with
  | Some s => if String.eqb s "" then None else Some s
  | None => None
  end.

(** ** The handlers of [server.js] *)

Section Handlers.
Context {B : Bcrypt}.

Definition SALT_ROUNDS : Z := 10.

(** [POST /api/send-otp] *)
Definition send_otp (env : Env) (email : option string) : M Response :=
  match given email with
  | None => ret (status_json 400 (Message "Email is required for OTP"))
  | Some email =>
      let otp := generateOtp (Math_random env) in
      let* w := get_world in
      let* _ :=
        put_world
          (with_otps w
             (set_prop (otps w) email
                {| otp := otp; expiresAt := Date_now env + 5 * 60 * 1000 |})) in
      try_catch
        (let* _ := sendOtpEmail email otp in
         ret (json (Message "OTP sent to your email")))
        (ret (status_json 500 (Message "Failed to send email OTP")))
  end.

(** [POST /api/signup] *)
Definition signup (env : Env) (email password : option string) (otp : jsval)
  : M Response :=
  match given email, given password, truthy otp with
  | Some email, Some password, true =>
      let* w := get_world in
      let record := get_prop (otps w) email in
      if gate_rejects record otp (Date_now env)
      then ret (status_json 400 (Message "Invalid or expired OTP"))
      else
        try_catch
          (let* existing := getUserByEmail email in
           match existing with
           | Some _ =>
               ret (status_json 400 (Message "User already exists, please login"))
           | None =>
               let* passwordHash := hash password SALT_ROUNDS (salt env) in
               let* user := insert_user (nextval_taken env) email passwordHash in
               let* w := get_world in
               let* _ := put_world (with_otps w (delete_prop (otps w) email)) in
               ret (json (MessageEmail "Signup successful" (Row.email user)))
           end)
          (ret (status_json 500 (Message "Server error during signup")))
  | _, _, _ =>
      ret (status_json 400 (Message "Email, password and OTP are required"))
  end.

(** [POST /api/login] *)
Definition login (env : Env) (email password : option string) : M Response :=
  match given email, given password with
  | Some email, Some password =>
      try_catch
        (let* user := getUserByEmail email in
         match user with
         | None =>
             ret (status_json 404 (Message "User not found, please sign up"))
         | Some user =>
             let* ok := compare password (Row.password_hash user) in
             if negb ok
             then ret (status_json 400 (Message "Invalid password"))
             else
               let* _ := insert_login_event (Row.id user) in
               ret (json (MessageEmail "Login successful" (Row.email user)))
         end)
        (ret (status_json 500 (Message "Server error during login")))
  | _, _ => ret (status_json 400 (Message "Email and password are required"))
  end.

(** [POST /api/reset-password] *)
Definition reset_password (env : Env) (email : option string) (otp : jsval)
    (newPassword : option string) : M Response :=
  match given email, truthy otp, given newPassword with
  | Some email, true, Some newPassword =>
      let* w := get_world in
      let record := get_prop (otps w) email in
      if gate_rejects record otp (Date_now env)
      then ret (status_json 400 (Message "Invalid or expired OTP"))
      else
        try_catch
          (let* user := getUserByEmail email in
           match user with
           | None => ret (status_json 404 (Message "User not found"))
           | Some user =>
               let* newHash := hash newPassword SALT_ROUNDS (salt env) in
               let* _ := update_password_hash newHash (Row.id user) in
               let* w := get_world in
               let* _ := put_world (with_otps w (delete_prop (otps w) email)) in
               ret (json (Message "Password reset successful"))
           end)
          (ret (status_json 500 (Message "Server error during reset")))
  | _, _, _ =>
      ret (status_json 400 (Message "Email, OTP and new password are required"))
  end.

(** [user.work_tags ? user.work_tags.split(',').filter(Boolean) : []] *)
Definition workTagsArray (work_tags : option string) : list string :=
  match work_tags with
  | Some s => if truthy (JStr s) then filter_Boolean (split_comma s) else []
  | None => []
  end.

Definition safeUser (user : Row.t) : Safe.t :=
  {| Safe.id := Row.id user;
     Safe.email := Row.email user;
     Safe.name := js_or (Row.name user) (JStr "");
     Safe.phone := js_or (Row.phone user) (JStr "");
     Safe.age := js_or (Row.age user) (JStr "");
     Safe.ageGroup := js_or (Row.age_group user) (JStr "");
     Safe.dob := js_or (Row.dob user) (JStr "");
     Safe.country := js_or (Row.country user) (JStr "");
     Safe.state := js_or (Row.state user) (JStr "");
     Safe.city := js_or (Row.city user) (JStr "");
     Safe.pincode := js_or (Row.pincode user) (JStr "");
     Safe.role := js_or (Row.role user) (JStr "");
     Safe.workTags := workTagsArray (Row.work_tags user) |}.

(** [GET /api/user] *)
Definition get_user (env : Env) (email : option string) : M Response :=
  match given email with
  | None => ret (status_json 400 (Message "Email is required"))
  | Some email =>
      try_catch
        (let* user := getUserByEmail email in
         match user with
         | None => ret (status_json 404 (Message "User not found"))
         | Some user => ret (json (UserBody (safeUser user)))
         end)
        (ret (status_json 500 (Message "Server error fetching user")))
  end.

(** [Array.isArray(workTags) ? workTags : workTags ? [workTags] : []] *)
Definition tagsArray (workTags : jsval) : list jsval :=
  match workTags with
  | JArr l => l
  | _ => if truthy workTags then [workTags] else []
  end.

(** [tagsString || null], the value written to [work_tags]. *)
Definition stored_tags (tagsString : string) : option string :=
  if truthy (JStr tagsString) then Some tagsString else None.

(** The [set] clause of the profile update. *)
Definition set_profile (b : Profile.t) (tagsString : string) (u : Row.t)
  : Row.t :=
  {| Row.id := Row.id u; Row.email := Row.email u;
     Row.password_hash := Row.password_hash u;
     Row.name := js_or (Profile.name b) JNull;
     Row.phone := js_or (Profile.phone b) JNull;
     Row.age := js_or (Profile.age b) JNull;
     Row.age_group := js_or (Profile.ageGroup b) JNull;
     Row.dob := js_or (Profile.dob b) JNull;
     Row.country := js_or (Profile.country b) JNull;
     Row.state := js_or (Profile.state b) JNull;
     Row.city := js_or (Profile.city b) JNull;
     Row.pincode := js_or (Profile.pincode b) JNull;
     Row.role := js_or (Profile.role b) JNull;
     Row.work_tags := stored_tags tagsString |}.

Definition update_profile (b : Profile.t) (tagsString : string) (id : Z)
  : M unit :=
  let* _ := await in
  let* w := get_world in
  put_world
    (with_users w (update_where_id id (set_profile b tagsString) (users w))
       (users_id_seq w)).

(** [POST /api/profile] *)
Definition save_profile (env : Env) (b : Profile.t) : M Response :=
  match given (Profile.email b) with
  | None => ret (status_json 400 (Message "Email is required"))
  | Some email =>
      let tagsString := join_comma (tagsArray (Profile.workTags b)) in
      try_catch
        (let* user := getUserByEmail email in
         match user with
         | None => ret (status_json 404 (Message "User not found"))
         | Some user =>
             let* _ := update_profile b tagsString (Row.id user) in
             ret (json (MessageEmail "Profile saved" email))
         end)
        (ret (status_json 500 (Message "Server error saving profile")))
  end.

(** [select count( * )::int as c from users where ...] *)
Definition count_users (p : Row.t -> bool) : M Z :=
  let* _ := await in
  let* w := get_world in
  ret (Z.of_nat (length (List.filter p (users w)))).

(** [GET /api/stats] *)
Definition stats (env : Env) : M Response :=
  try_catch
    (let* total := count_users (fun _ => true) in
     let* helpers :=
       count_users (fun u => strict_eq (Row.role u) (JStr "helper")) in
     let* hirers :=
       count_users (fun u => strict_eq (Row.role u) (JStr "hirer")) in
     let* ready :=
       count_users (fun u => negb (strict_eq (Row.role u) JNull)) in
     ret (json (StatsBody total helpers hirers ready)))
    (ret (status_json 500 (Message "Stats error"))).

(** ** Serving requests *)

Inductive Request : Type :=
| SendOtp (email : option string)
| Signup (email password : option string) (otp : jsval)
| Login (email password : option string)
| ResetPassword (email : option string) (otp : jsval)
    (newPassword : option string)
| GetUser (email : option string)
| SaveProfile (b : Profile.t)
| Stats.

Definition handler (env : Env) (rq : Request) : M Response :=
  match rq with
  | SendOtp email => send_otp env email
  | Signup email password otp => signup env email password otp
  | Login email password => login env email password
  | ResetPassword email otp newPassword =>
      reset_password env email otp newPassword
  | GetUser email => get_user env email
  | SaveProfile b => save_profile env b
  | Stats => stats env
  end.

(** One request served in a world: the response sent, if one is, and the
    world left behind. *)
Definition serve (env : Env) (rq : Request) (w : World)
  : option Response * World :=
  match handler env rq (w, rejects env) with
  | (Done r, (w', _)) => (Some r, w')
  | (Thrown, (w', _)) => (None, w')
  end.

(** A run of the server over a list of requests, each served to its end
    before the next one starts. *)
Fixpoint serve_all (trace : list (Env * Request)) (w : World) : World :=
  match trace with
  | [] => w
  | (env, rq) :: trace' => serve_all trace' (snd (serve env rq w))
  end.

(** The process starts with [otps = {}] over whatever the database holds. *)
Definition boot (db : World) : World := with_otps db empty_registry.

End Handlers.

(** ** Vocabulary of the properties *)

(** No awaited collaborator call rejects. *)
Definition calm (flags : list bool) : Prop := Forall (fun b => b = false) flags.

(** The value of a decimal digit. *)
Definition digit_value (c : ascii) : option Z :=
  let k := Z.of_nat (nat_of_ascii c) in
  if (48 <=? k) && (k <=? 57) then Some (k - 48) else None.

Fixpoint decimal_go (s : string) (acc : Z) : option Z :=
  match s with
  | EmptyString => Some acc
  | String c s' =>
      match digit_value c with
      | Some d => decimal_go s' (10 * acc + d)
      | None => None
      end
  end.

(** The integer a non-empty string of decimal digits denotes. *)
Definition decimal_value (s : string) : option Z :=
  match s with
  | EmptyString => None
  | String _ _ => decimal_go s 0
  end.

(** A stored code that is submitted in time: an entry exists for the
    identity, the submitted value is that very string, and the entry has not
    expired. *)
Definition code_valid (o : Registry) (identity : string) (submitted : jsval)
    (now : Z) : Prop :=
  exists ent,
    o !! identity = Some ent /\
    submitted = JStr (otp ent) /\
    now <= expiresAt ent.

(** The ten scalar profile fields. *)
Inductive Scalar : Type :=
| FName | FPhone | FAge | FAgeGroup | FDob
| FCountry | FState | FCity | FPincode | FRole.

Definition submitted (b : Profile.t) (f : Scalar) : jsval :=
  match f with
  | FName => Profile.name b | FPhone => Profile.phone b
  | FAge => Profile.age b | FAgeGroup => Profile.ageGroup b
  | FDob => Profile.dob b | FCountry => Profile.country b
  | FState => Profile.state b | FCity => Profile.city b
  | FPincode => Profile.pincode b | FRole => Profile.role b
  end.

Definition column (u : Row.t) (f : Scalar) : jsval :=
  match f with
  | FName => Row.name u | FPhone => Row.phone u
  | FAge => Row.age u | FAgeGroup => Row.age_group u
  | FDob => Row.dob u | FCountry => Row.country u
  | FState => Row.state u | FCity => Row.city u
  | FPincode => Row.pincode u | FRole => Row.role u
  end.


(** The entry [send_otp] stores. *)
Definition issued (env : Env) : OtpEntry :=
  {| otp := generateOtp (Math_random env);
     expiresAt := Date_now env + 300000 |}.

Fixpoint has_comma (s : string) : bool :=
  match s with
  | EmptyString => false
  | String c s' => Ascii.eqb c "," || has_comma s'
  end.

(** A tag that survives the comma-separated column: not empty, no comma. *)
Definition plain_tag (t : string) : Prop :=
  t <> ""%string /\ has_comma t = false.

(** The body with another [workTags]. *)
Definition with_workTags (b : Profile.t) (v : jsval) : Profile.t :=
  {| Profile.email := Profile.email b; Profile.name := Profile.name b;
     Profile.phone := Profile.phone b; Profile.age := Profile.age b;
     Profile.ageGroup := Profile.ageGroup b; Profile.dob := Profile.dob b;
     Profile.country := Profile.country b; Profile.state := Profile.state b;
     Profile.city := Profile.city b; Profile.pincode := Profile.pincode b;
     Profile.role := Profile.role b; Profile.workTags := v |}.

(** The responses of the handlers, by name. *)
Definition invalid_otp : Response :=
  status_json 400 (Message "Invalid or expired OTP").

Definition otp_sent : Response := json (Message "OTP sent to your email").

Definition otp_send_failed : Response :=
  status_json 500 (Message "Failed to send email OTP").

Definition duplicate_account : Response :=
  status_json 400 (Message "User already exists, please login").

Definition signup_successful (e : string) : Response :=
  json (MessageEmail "Signup successful" e).

Definition login_not_found : Response :=
  status_json 404 (Message "User not found, please sign up").

Definition invalid_password : Response :=
  status_json 400 (Message "Invalid password").

Definition login_successful (e : string) : Response :=
  json (MessageEmail "Login successful" e).

Definition reset_not_found : Response :=
  status_json 404 (Message "User not found").

Definition reset_successful : Response :=
  json (Message "Password reset successful").

Definition profile_saved (e : string) : Response :=
  json (MessageEmail "Profile saved" e).

(** ** A stand-in for [bcrypt] to run the handlers on examples *)

Module Toy.
Definition bcrypt : Bcrypt := {|
  bcrypt_hash data _ _ := String "#" data;
  bcrypt_compare data encrypted := String.eqb encrypted (String "#" data)
|}.
End Toy.

(** ** Sample worlds *)

Module Sample.

Definition alice : string := "a@x.com".

Definition entry : OtpEntry := {| otp := "550000"; expiresAt := 301000 |}.

Definition row : Row.t :=
  {| Row.id := 1; Row.email := alice; Row.password_hash := "#pw";
     Row.name := JNull; Row.phone := JNull; Row.age := JNull;
     Row.age_group := JNull; Row.dob := JNull; Row.country := JNull;
     Row.state := JNull; Row.city := JNull; Row.pincode := JNull;
     Row.role := JNull; Row.work_tags := None |}.

(** An empty database behind a process that has just started. *)
Definition fresh : World :=
  {| otps := empty_registry; users := []; login_events := [];
     users_id_seq := 1; outbox := [] |}.

(** A code is pending for [alice], who has no account. *)
Definition pending : World := with_otps fresh {[ alice := entry ]}.

(** A code is pending for [alice], who has an account with password "pw". *)
Definition registered : World :=
  with_otps (with_users fresh [row] 2) {[ alice := entry ]}.

(** A request at time 2000 whose collaborators all answer; the random draw
    is 0.5. *)
Definition env : Env :=
  {| Date_now := 2000; Math_random := 2 ^ 1073; salt := "salt"; rejects := [];
     nextval_taken := false |}.

(** The same request with a transport (the first awaited call) that fails. *)
Definition env_failing : Env :=
  {| Date_now := 2000; Math_random := 2 ^ 1073; salt := "salt";
     rejects := [true]; nextval_taken := false |}.

End Sample.

(** A profile body for [alice]. *)
Definition sample_profile (age workTags : jsval) : Profile.t :=
  {| Profile.email := Some Sample.alice; Profile.name := JStr "Alice";
     Profile.phone := JUndefined; Profile.age := age;
     Profile.ageGroup := JUndefined; Profile.dob := JUndefined;
     Profile.country := JStr "IN"; Profile.state := JStr "";
     Profile.city := JUndefined; Profile.pincode := JUndefined;
     Profile.role := JStr "helper"; Profile.workTags := workTags |}.

(** The tags a fetch shows after a save of the body. *)
Definition tags_after_save (b : Profile.t) : option (list string) :=
  match
    fst (serve (B := Toy.bcrypt) Sample.env (GetUser (Some Sample.alice))
           (snd (serve (B := Toy.bcrypt) Sample.env (SaveProfile b)
                   Sample.registered)))
  with
  | Some {| body := UserBody view |} => Some (Safe.workTags view)
  | _ => None
  end.



(** ** Vocabulary of the further properties *)

(** The response of the [catch] block of a handler. *)
Definition catch_response (rq : Request) : Response :=
  match rq with
  | SendOtp _ => status_json 500 (Message "Failed to send email OTP")
  | Signup _ _ _ => status_json 500 (Message "Server error during signup")
  | Login _ _ => status_json 500 (Message "Server error during login")
  | ResetPassword _ _ _ => status_json 500 (Message "Server error during reset")
  | GetUser _ => status_json 500 (Message "Server error fetching user")
  | SaveProfile _ => status_json 500 (Message "Server error saving profile")
  | Stats => status_json 500 (Message "Stats error")
  end.

(** The same request met by collaborators that all answer. *)
Definition unfailing (env : Env) : Env :=
  {| Date_now := Date_now env; Math_random := Math_random env;
     salt := salt env; rejects := []; nextval_taken := nextval_taken env |}.

(** A signup whose insert (its third awaited call) fails while running. *)
Definition env_insert_fails : Env :=
  {| Date_now := 2000; Math_random := 2 ^ 1073; salt := "salt";
     rejects := [false; false; true]; nextval_taken := true |}.

(** A value that holds an object, at any depth of arrays.  The conversion
    of an object to a string looks up its [toString] and [valueOf] and throws
    when neither gives a primitive, which [toString] above does not follow:
    it is the conversion of the values that hold no object. *)
Fixpoint holds_object (v : jsval) : bool :=
  match v with
  | JObj => true
  | JArr l => existsb holds_object l
  | _ => false
  end.

(** A request whose tags, if it has any, hold no object: [tagsArray.join(',')]
    on line 256, before the [try], does not throw on it. *)
Definition tags_without_object (rq : Request) : Prop :=
  match rq with
  | SaveProfile b => holds_object (Profile.workTags b) = false
  | _ => True
  end.

(** The emails of the table, in row order. *)
Definition emails (w : World) : list string := List.map Row.email (users w).

(** The messages a request hands to the mail transport. *)
Definition mail_of (step : Env * Request) : list Mail :=
  match step with
  | (env, SendOtp email) =>
      match given email with
      | Some e => [mailOptions e (generateOtp (Math_random env))]
      | None => []
      end
  | _ => []
  end.

(** The codes a run issues, each with the identity it is issued for, in
    order. *)
Definition codes_issued (trace : list (Env * Request))
  : list (string * string) :=
  List.flat_map
    (fun step : Env * Request =>
       match step with
       | (env, SendOtp email) =>
           match given email with
           | Some e => [(e, generateOtp (Math_random env))]
           | None => []
           end
       | _ => []
       end) trace.

(** A message addressed to the identity whose text gives the code. *)
Definition carries_code (m : Mail) (identity code : string) : Prop :=
  mail_to m = identity /\
  subject m = "Your Jugaad OTP"%string /\
  text m = ("Your Jugaad verification code is " +:+ code
            +:+ ". It is valid for 5 minutes.")%string.

(** An attempt to pass the gate of signup or reset-password with a code that
    is not valid. *)
Definition refused_attempt (w : World) (step : Env * Request) : Prop :=
  match step with
  | (env, Signup (Some e) _ code) | (env, ResetPassword (Some e) code _) =>
      ~ code_valid (otps w) e code (Date_now env)
  | _ => False
  end.

(** The counts of [GET /api/stats] over a table: the rows a [where] clause
    keeps. *)
Definition count_rows (p : Row.t -> bool) (us : list Row.t) : Z :=
  Z.of_nat (length (List.filter p us)).

(** [role = 'helper'], [role = 'hirer'], [role is not null] *)
Definition is_helper (u : Row.t) : bool := strict_eq (Row.role u) (JStr "helper").

Definition is_hirer (u : Row.t) : bool := strict_eq (Row.role u) (JStr "hirer").

Definition has_role (u : Row.t) : bool := negb (strict_eq (Row.role u) JNull).

Definition stats_of (us : list Row.t) : Response :=
  json (StatsBody (count_rows (fun _ => true) us) (count_rows is_helper us)
          (count_rows is_hirer us) (count_rows has_role us)).

(** Two requests of [alice] with the pending code of the sample worlds. *)
Definition sample_signup : Request :=
  Signup (Some Sample.alice) (Some "pw"%string) (JStr "550000").

Definition sample_reset : Request :=
  ResetPassword (Some Sample.alice) (JStr "550000") (Some "new"%string).

(** ** Signups in flight together *)

Section InFlight.
Context {B : Bcrypt}.

(** Where a signup stands between its arrival and its answer: waiting for
    one of its three awaited calls (lines 91, 98 and 100), with the variables
    it holds, or answered. *)
Inductive SignupStage : Type :=
| AwaitsLookup (email password : string)
| AwaitsHash (email password : string)
| AwaitsInsert (email passwordHash : string)
| Answered (r : Response).

(** [POST /api/signup], lines 77-91: the request arrives and runs up to its
    first [await]. *)
Definition signup_arrives (env : Env) (email password : option string)
    (otp : jsval) : M SignupStage :=
  match given email, given password, truthy otp with
  | Some email, Some password, true =>
      let* w := get_world in
      let record := get_prop (otps w) email in
      if gate_rejects record otp (Date_now env)
      then ret (Answered (status_json 400 (Message "Invalid or expired OTP")))
      else ret (AwaitsLookup email password)
  | _, _, _ =>
      ret (Answered
             (status_json 400 (Message "Email, password and OTP are required")))
  end.

(** [POST /api/signup], lines 91-113: the awaited call settles and the
    handler runs on to its next [await], or to its answer. *)
Definition signup_resumes (env : Env) (stage : SignupStage) : M SignupStage :=
  let caught :=
    ret (Answered (status_json 500 (Message "Server error during signup"))) in
  match stage with
  | AwaitsLookup email password =>
      try_catch
        (let* existing := getUserByEmail email in
         match existing with
         | Some _ =>
             ret (Answered
                    (status_json 400 (Message "User already exists, please login")))
         | None => ret (AwaitsHash email password)
         end)
        caught
  | AwaitsHash email password =>
      try_catch
        (let* passwordHash := hash password SALT_ROUNDS (salt env) in
         ret (AwaitsInsert email passwordHash))
        caught
  | AwaitsInsert email passwordHash =>
      try_catch
        (let* user := insert_user (nextval_taken env) email passwordHash in
         let* w := get_world in
         let* _ := put_world (with_otps w (delete_prop (otps w) email)) in
         ret (Answered (json (MessageEmail "Signup successful" (Row.email user)))))
        caught
  | Answered r => ret (Answered r)
  end.




End InFlight.

(** * Part II: properties *)

(** ** Rounding to binary64 *)

Module F64Facts.
Import F64.
Local Open Scope Z_scope.

Lemma round_to_cases s n :
  0 <= s ->
  round_to s n = n / 2 ^ s * 2 ^ s \/ round_to s n = (n / 2 ^ s + 1) * 2 ^ s.
Proof.
  intros _. unfold round_to.
  repeat match goal with |- context [if ?b then _ else _] => destruct b end; auto.
Qed.

Lemma round_to_multiple s n : 0 <= s -> round_to s n mod 2 ^ s = 0.
Proof.
  intros Hs. destruct (round_to_cases s n Hs) as [-> | ->];
    apply Z.mod_mul; lia.
Qed.

Lemma round_to_ge s n m :
  0 <= s -> m mod 2 ^ s = 0 -> m <= n -> m <= round_to s n.
Proof.
  intros Hs Hm Hle.
  assert (Hp : 0 < 2 ^ s) by lia.
  assert (Hq : m / 2 ^ s <= n / 2 ^ s) by (apply Z.div_le_mono; lia).
  assert (Hm' : m = m / 2 ^ s * 2 ^ s).
  { rewrite (Z.div_mod m (2 ^ s)) at 1 by lia. rewrite Hm. lia. }
  destruct (round_to_cases s n Hs) as [-> | ->]; nia.
Qed.

Lemma round_to_le s n m :
  0 <= s -> m mod 2 ^ s = 0 -> n <= m -> round_to s n <= m.
Proof.
  intros Hs Hm Hle.
  assert (Hp : 0 < 2 ^ s) by lia.
  assert (Hm' : m = m / 2 ^ s * 2 ^ s).
  { rewrite (Z.div_mod m (2 ^ s)) at 1 by lia. rewrite Hm. lia. }
  assert (Hn : n = 2 ^ s * (n / 2 ^ s) + n mod 2 ^ s) by (apply Z.div_mod; lia).
  assert (Hr : 0 <= n mod 2 ^ s < 2 ^ s) by (apply Z.mod_pos_bound; lia).
  unfold round_to.
  destruct (Z.ltb_spec (2 * (n mod 2 ^ s)) (2 ^ s)).
  { nia. }
  assert (Hlt : n / 2 ^ s < m / 2 ^ s) by nia.
  repeat match goal with |- context [if ?b then _ else _] => destruct b end; nia.
Qed.

Lemma round_to_near s n : 0 <= s -> 2 * round_to s n <= 2 * n + 2 ^ s.
Proof.
  intros Hs.
  assert (Hp : 0 < 2 ^ s) by lia.
  assert (Hn : n = 2 ^ s * (n / 2 ^ s) + n mod 2 ^ s) by (apply Z.div_mod; lia).
  assert (Hr : 0 <= n mod 2 ^ s < 2 ^ s) by (apply Z.mod_pos_bound; lia).
  unfold round_to.
  destruct (Z.ltb_spec (2 * (n mod 2 ^ s)) (2 ^ s)); [nia |].
  destruct (Z.ltb_spec (2 ^ s) (2 * (n mod 2 ^ s))); [nia |].
  destruct (Z.even _); nia.
Qed.

Lemma round_to_scale t k n :
  0 <= t -> 0 <= k -> round_to (t + k) (n * 2 ^ k) = round_to t n * 2 ^ k.
Proof.
  intros Ht Hk. unfold round_to.
  assert (Hpt : 0 < 2 ^ t) by lia.
  assert (Hpk : 0 < 2 ^ k) by lia.
  rewrite Z.pow_add_r by lia.
  rewrite Z.div_mul_cancel_r by lia.
  rewrite Z.mul_mod_distr_r by lia.
  assert (Hr : 0 <= n mod 2 ^ t < 2 ^ t) by (apply Z.mod_pos_bound; lia).
  destruct (Z.ltb_spec (2 * (n mod 2 ^ t)) (2 ^ t));
    destruct (Z.ltb_spec (2 * (n mod 2 ^ t * 2 ^ k)) (2 ^ t * 2 ^ k)); try nia.
  destruct (Z.ltb_spec (2 ^ t) (2 * (n mod 2 ^ t)));
    destruct (Z.ltb_spec (2 ^ t * 2 ^ k) (2 * (n mod 2 ^ t * 2 ^ k))); try nia.
  destruct (Z.even _); nia.
Qed.

Lemma pow2_multiple c k t : 0 <= t <= k -> (c * 2 ^ k) mod 2 ^ t = 0.
Proof.
  intros H. replace k with ((k - t) + t) by lia.
  rewrite Z.pow_add_r by lia. rewrite Z.mul_assoc. apply Z.mod_mul. lia.
Qed.

Lemma log2_le_of_lt a b : 0 <= b -> a < 2 ^ (b + 1) -> Z.log2 a <= b.
Proof.
  intros Hb Ha. destruct (Z.le_gt_cases a 0) as [Hle | Hpos].
  - rewrite Z.log2_nonpos; lia.
  - apply Z.log2_lt_pow2 in Ha; lia.
Qed.

Lemma mul_of_int a k : 0 <= a -> 0 <= k -> mul a (of_int k) = round53 (a * k).
Proof.
  intros Ha Hk. unfold mul, round53, of_int, one.
  rewrite Z.mul_assoc.
  assert (Hak : 0 <= a * k) by lia.
  destruct (Z.eq_dec (a * k) 0) as [-> | Hne].
  - reflexivity.
  - rewrite Z.log2_mul_pow2 by lia.
    replace (Z.max (1074 + Z.log2 (a * k) - 52) 1074)
      with (Z.max (Z.log2 (a * k) - 52) 0 + 1074) by lia.
    rewrite round_to_scale by lia.
    apply Z.div_mul. lia.
Qed.

(** The largest double below 1 is [1 - 2^-53]. *)
Lemma below_one r : is_double r -> r < one -> r <= one - 2 ^ 1021.
Proof.
  intros [Hr0 Hr] Hlt. unfold one in *.
  assert (HU : 2 ^ 1074 = 2 ^ 53 * 2 ^ 1021) by (rewrite <- Z.pow_add_r by lia; reflexivity).
  destruct (Z.lt_ge_cases r (2 ^ 1073)) as [Hsmall | Hbig].
  - assert (2 ^ 1073 = 2 ^ 52 * 2 ^ 1021) by (rewrite <- Z.pow_add_r by lia; reflexivity).
    assert (0 < 2 ^ 1021) by lia. nia.
  - assert (HL : Z.log2 r = 1073).
    { apply Z.log2_unique; [lia |]. split; [exact Hbig | exact Hlt]. }
    unfold round53 in Hr. rewrite HL in Hr.
    change (Z.max (1073 - 52) 0) with 1021 in Hr.
    pose proof (round_to_multiple 1021 r ltac:(lia)) as Hm. rewrite Hr in Hm.
    apply Z.mod_divide in Hm; [| lia]. destruct Hm as [j Hj].
    assert (0 < 2 ^ 1021) by lia.
    assert (j < 2 ^ 53) by nia. nia.
Qed.

(** [fl(r * 900000)] stays one spacing below 900000. *)
Lemma scaled_draw_bound r :
  is_double r -> r < one ->
  0 <= mul r (of_int 900000) <= of_int 900000 - 2 ^ 1041.
Proof.
  intros Hd Hlt. pose proof (below_one r Hd Hlt) as Hmax.
  destruct Hd as [Hr0 _].
  rewrite mul_of_int by lia. unfold of_int, one in *.
  set (M := r * 900000).
  assert (HM0 : 0 <= M) by (unfold M; lia).
  assert (HE : 0 < 2 ^ 1021) by lia.
  assert (HU : 2 ^ 1074 = 2 ^ 53 * 2 ^ 1021) by (rewrite <- Z.pow_add_r by lia; reflexivity).
  assert (HD : 2 ^ 1041 = 2 ^ 20 * 2 ^ 1021) by (rewrite <- Z.pow_add_r by lia; reflexivity).
  assert (HT : 2 ^ 1094 = 2 ^ 73 * 2 ^ 1021) by (rewrite <- Z.pow_add_r by lia; reflexivity).
  assert (HH : 2 ^ 1093 = 2 ^ 72 * 2 ^ 1021) by (rewrite <- Z.pow_add_r by lia; reflexivity).
  assert (HMmax : M <= 900000 * 2 ^ 1074 - 900000 * 2 ^ 1021) by (unfold M; lia).
  assert (HL : Z.log2 M <= 1093) by (apply log2_le_of_lt; [lia | simpl (1093 + 1); lia]).
  unfold round53. set (t := Z.max (Z.log2 M - 52) 0).
  assert (Ht : 0 <= t <= 1041) by (unfold t; lia).
  split.
  { apply round_to_ge; [lia | apply Z.mod_0_l; lia | lia]. }
  destruct (Z.lt_ge_cases M (2 ^ 1093)) as [Hsmall | Hbig].
  - assert (HL' : Z.log2 M <= 1092) by (apply log2_le_of_lt; [lia | simpl (1092 + 1); lia]).
    transitivity (1 * 2 ^ 1093); [| lia].
    apply round_to_le; [lia | apply pow2_multiple; unfold t; lia | lia].
  - assert (HL' : Z.log2 M = 1093).
    { apply Z.log2_unique; [lia |]. simpl (1093 + 1). lia. }
    assert (Htv : t = 1041) by (unfold t; lia). rewrite Htv.
    pose proof (round_to_multiple 1041 M ltac:(lia)) as Hm.
    pose proof (round_to_near 1041 M ltac:(lia)) as Hn.
    apply Z.mod_divide in Hm; [| lia]. destruct Hm as [j Hj].
    rewrite Hj in *.
    assert (j < 900000 * 2 ^ 33) by nia. nia.
Qed.

Lemma generateOtp_number_range r :
  is_double r -> r < one ->
  100000 <= floor (add (of_int 100000) (mul r (of_int 900000))) <= 999999.
Proof.
  intros Hd Hlt. pose proof (scaled_draw_bound r Hd Hlt) as [HP0 HP].
  set (P := mul r (of_int 900000)) in *.
  unfold floor, add, of_int, one in *.
  assert (HT : 2 ^ 1094 = 2 ^ 20 * 2 ^ 1074) by (rewrite <- Z.pow_add_r by lia; reflexivity).
  assert (HU : 0 < 2 ^ 1074) by lia.
  assert (HD : 0 < 2 ^ 1041) by lia.
  set (S := 100000 * 2 ^ 1074 + P).
  assert (HL : Z.log2 S <= 1093) by (apply log2_le_of_lt; [lia | simpl (1093 + 1); unfold S; lia]).
  unfold round53. set (t := Z.max (Z.log2 S - 52) 0).
  assert (Ht : 0 <= t <= 1041) by (unfold t; lia).
  assert (Hlo : 100000 * 2 ^ 1074 <= round_to t S).
  { apply round_to_ge; [lia | apply pow2_multiple; lia | unfold S; lia]. }
  assert (Hhi : round_to t S <= 1000000 * 2 ^ 1074 - 2 ^ 1041).
  { apply round_to_le; [lia | | unfold S; lia].
    replace (1000000 * 2 ^ 1074 - 2 ^ 1041) with ((1000000 * 2 ^ 33 - 1) * 2 ^ 1041).
    - apply pow2_multiple. lia.
    - replace (2 ^ 1074) with (2 ^ 33 * 2 ^ 1041)
        by (rewrite <- Z.pow_add_r by lia; reflexivity). lia. }
  split.
  - apply Z.div_le_lower_bound; lia.
  - assert (round_to t S / 2 ^ 1074 < 1000000); [| lia].
    apply Z.div_lt_upper_bound; lia.
Qed.

(** On a sample of draws (zero, subnormals, one half, the largest double
    below one, values with full mantissas) the operations agree with the
    library's IEEE 754 specification. *)
Example agrees_with_IEEE_754 :
  forallb
    (fun r =>
       (round53 r =? r) && (of_spec (to_spec r) =? r)
       && (mul r (of_int 900000) =? spec_mul r (of_int 900000))
       && (add (of_int 100000) (mul r (of_int 900000))
           =? spec_add (of_int 100000) (spec_mul r (of_int 900000))))
    [ 0; 1; 3; 2 ^ 52 + 1; 2 ^ 1000 * 7; 2 ^ 1073; 2 ^ 1073 + 2 ^ 1021;
      2 ^ 1072 + 2 ^ 1020 * 3; 2 ^ 1021 * 1234567890123457;
      2 ^ 1020 * 9007199254740991; 2 ^ 1074 - 2 ^ 1022; 2 ^ 1074 - 2 ^ 1021 ]
  = true.
Proof. vm_compute. reflexivity. Qed.

End F64Facts.

(** ** The digits of a generated code *)

Lemma digits_go_fuel f1 : forall f2 n acc,
  (f1 <= f2)%nat -> 0 <= n < 10 ^ Z.of_nat (S f1) ->
  digits_go (S f1) n acc = digits_go (S f2) n acc.
Proof.
  induction f1 as [| f1 IH]; intros f2 n acc Hle Hn.
  - simpl. destruct (Z.ltb_spec n 10); [reflexivity | ]. change (10 ^ Z.of_nat 1) with 10 in Hn. lia.
  - destruct f2 as [| f2]; [lia |].
    cbn [digits_go]. destruct (Z.ltb_spec n 10); [reflexivity |].
    apply IH; [lia |].
    rewrite Nat2Z.inj_succ, Z.pow_succ_r in Hn by lia.
    split; [apply Z.div_pos; lia | apply Z.div_lt_upper_bound; lia].
Qed.

Lemma digit_value_char d : 0 <= d <= 9 -> digit_value (digit_char d) = Some d.
Proof.
  intros H.
  assert (Hd : d = 0 \/ d = 1 \/ d = 2 \/ d = 3 \/ d = 4 \/ d = 5 \/ d = 6 \/ d = 7 \/ d = 8 \/ d = 9) by lia.
  repeat (destruct Hd as [-> | Hd]; [reflexivity |]). subst. reflexivity.
Qed.

Lemma six_digits n :
  100000 <= n <= 999999 ->
  number_toString n =
    String (digit_char (n / 100000 mod 10))
   (String (digit_char (n / 10000 mod 10))
   (String (digit_char (n / 1000 mod 10))
   (String (digit_char (n / 100 mod 10))
   (String (digit_char (n / 10 mod 10))
   (String (digit_char (n mod 10)) EmptyString))))).
Proof.
  intros Hn. unfold number_toString.
  destruct (Z.ltb_spec n 0); [lia |].
  assert (HL : 16 <= Z.log2 n) by (apply Z.log2_le_pow2; lia).
  remember (Z.to_nat (Z.log2 n)) as f eqn:Hf.
  destruct f as [| f]; [lia |].
  rewrite <- (digits_go_fuel 5 (S f)) by (change (10 ^ Z.of_nat 6) with 1000000; lia).
  cbn [digits_go].
  rewrite !Z.div_div by lia.
  change (10 * 10) with 100. change (100 * 10) with 1000.
  change (1000 * 10) with 10000. change (10000 * 10) with 100000.
  destruct (Z.ltb_spec n 10); [lia |].
  destruct (Z.ltb_spec (n / 10) 10); [Z.div_mod_to_equations; lia |].
  destruct (Z.ltb_spec (n / 100) 10); [Z.div_mod_to_equations; lia |].
  destruct (Z.ltb_spec (n / 1000) 10); [Z.div_mod_to_equations; lia |].
  destruct (Z.ltb_spec (n / 10000) 10); [Z.div_mod_to_equations; lia |].
  destruct (Z.ltb_spec (n / 100000) 10); [| Z.div_mod_to_equations; lia].
  reflexivity.
Qed.

Lemma generated_value n :
  100000 <= n <= 999999 -> decimal_value (number_toString n) = Some n.
Proof.
  intros Hn. rewrite six_digits by exact Hn.
  unfold decimal_value. cbn [decimal_go].
  rewrite !digit_value_char by (Z.div_mod_to_equations; lia).
  cbn [decimal_go]. f_equal. Z.div_mod_to_equations; lia.
Qed.

(** ** The gate *)

Lemma given_nonempty e : e <> ""%string -> given (Some e) = Some e.
Proof.
  intros He. unfold given.
  destruct (String.eqb_spec e ""); [contradiction | reflexivity].
Qed.

Lemma get_prop_entry (o : Registry) key e :
  get_prop o key = SlotEntry e <-> o !! key = Some e.
Proof.
  unfold get_prop, Object_prototype_get. split.
  - intros H. repeat case_match; congruence.
  - intros ->. reflexivity.
Qed.

Lemma get_prop_inherited (o : Registry) key :
  o !! key = None -> exists v, get_prop o key = SlotValue v.
Proof.
  intros H. unfold get_prop, Object_prototype_get. rewrite H.
  repeat case_match; eauto.
Qed.

Lemma strict_eq_string s v : strict_eq (JStr s) v = true <-> v = JStr s.
Proof.
  destruct v; simpl; split; try congruence.
  - intros H. apply String.eqb_eq in H. congruence.
  - intros [= ->]. apply String.eqb_refl.
Qed.

(** Past the test of the field, the condition of the gate is false exactly
    on a stored code submitted in time. *)
Lemma gate_accepts_iff (o : Registry) key code now :
  truthy code = true ->
  gate_rejects (get_prop o key) code now = false <-> code_valid o key code now.
Proof.
  intros Hc. unfold gate_rejects, code_valid.
  destruct (o !! key) as [e |] eqn:Hk.
  - apply get_prop_entry in Hk as Hg. rewrite Hg.
    cbn [slot_truthy slot_otp slot_expiresAt lt_number negb orb].
    rewrite orb_false_iff, negb_false_iff, strict_eq_string, Z.ltb_ge.
    split.
    + intros [-> Hle]. exists e. auto.
    + intros (ent & [= <-] & -> & Hle). auto.
  - destruct (get_prop_inherited o key Hk) as [v ->]. simpl.
    split.
    + destruct code; simpl in *; try discriminate;
        rewrite ?orb_true_r; discriminate.
    + intros (ent & [=] & _).
Qed.

Lemma gate_rejects_iff (o : Registry) key code now :
  truthy code = true ->
  gate_rejects (get_prop o key) code now = true <-> ~ code_valid o key code now.
Proof.
  intros Hc. rewrite <- (gate_accepts_iff o key code now Hc).
  destruct (gate_rejects _ _ _); split; congruence.
Qed.

(** A code that is valid is a non-empty string, so it passes the test of the
    field when the stored code is not empty. *)
Lemma code_valid_truthy (o : Registry) key code now :
  code_valid o key code now ->
  truthy code = true \/ exists ent, o !! key = Some ent /\ otp ent = ""%string.
Proof.
  intros (ent & Hk & -> & _). simpl.
  destruct (String.eqb_spec (otp ent) ""); [right; eauto | left; reflexivity].
Qed.

(** A number is never accepted for the string of the same digits. *)
Example gate_compares_strings :
  gate_rejects
    (get_prop {[ "a@x.com"%string := {| otp := "550000"; expiresAt := 301000 |} ]}
       "a@x.com")
    (JNum 550000) 2000 = true /\
  gate_rejects
    (get_prop {[ "a@x.com"%string := {| otp := "550000"; expiresAt := 301000 |} ]}
       "a@x.com")
    (JStr "550000") 2000 = false.
Proof. split; vm_compute; reflexivity. Qed.

(** ** Running the handlers *)

(** The cycle of the registry on a fresh process: a code is issued for
    [alice], her signup consumes it, and the same code is refused
    afterwards. *)
Example issue_signup_then_refused :
  let signup := Signup (Some Sample.alice) (Some "pw"%string) (JStr "550000") in
  let w1 := snd (serve (B := Toy.bcrypt) Sample.env (SendOtp (Some Sample.alice))
                   Sample.fresh) in
  let r2 := serve (B := Toy.bcrypt) Sample.env signup w1 in
  let r3 := serve (B := Toy.bcrypt) Sample.env signup (snd r2) in
  otps w1 = {[ Sample.alice := {| otp := "550000"; expiresAt := 302000 |} ]} /\
  fst r2 = Some (signup_successful Sample.alice) /\
  otps (snd r2) = ∅ /\
  r3 = (Some invalid_otp, snd r2).
Proof. vm_compute. repeat split; reflexivity. Qed.

(** The same cycle for the identity ["__proto__"]: the entry is reachable
    through that key, the signup succeeds, and [delete] finds no own property
    to remove, so the code passes the gate a second time. *)
Example proto_entry_is_not_consumed :
  let e := "__proto__"%string in
  let signup := Signup (Some e) (Some "pw"%string) (JStr "550000") in
  let w1 := snd (serve (B := Toy.bcrypt) Sample.env (SendOtp (Some e))
                   Sample.fresh) in
  let r2 := serve (B := Toy.bcrypt) Sample.env signup w1 in
  let r3 := serve (B := Toy.bcrypt) Sample.env signup (snd r2) in
  fst r2 = Some (signup_successful e) /\
  otps (snd r2) !! e = Some {| otp := "550000"; expiresAt := 302000 |} /\
  get_prop (otps (snd r2)) "otp" = SlotValue (JStr "550000") /\
  fst r3 = Some duplicate_account.
Proof. vm_compute. repeat split; reflexivity. Qed.

Lemma calm_cases flags :
  calm flags -> flags = [] \/ exists rest, flags = false :: rest /\ calm rest.
Proof.
  intros H. destruct H as [| b rest Hb Hrest]; [left; reflexivity |].
  right. exists rest. subst b. split; [reflexivity | exact Hrest].
Qed.

Ltac unfold_handlers :=
  unfold serve, handler, send_otp, signup, login, reset_password, get_user,
    save_profile, stats, count_users, getUserByEmail, insert_user,
    await_leaving, nextval, update_password_hash, insert_login_event, update_profile, sendOtpEmail,
    hash, compare, try_catch, bind, ret, get_world, put_world, await in *.

(** Split on the flag the next [await] meets. *)
Ltac next_await :=
  match goal with
  | H : calm ?fs |- context [match ?fs with _ => _ end] =>
      let Hc := fresh "Hcalm" in
      destruct (calm_cases fs H) as [-> | (? & -> & Hc)]; clear H; simpl
  | |- context [match ?fs with [] => _ | _ :: _ => _ end] =>
      is_var fs; destruct fs as [| [] fs]; simpl
  end.

Section Gate.
Context {B : Bcrypt}.

Lemma signup_rejected env w e p code :
  e <> ""%string -> p <> ""%string -> truthy code = true ->
  gate_rejects (get_prop (otps w) e) code (Date_now env) = true ->
  serve env (Signup (Some e) (Some p) code) w = (Some invalid_otp, w).
Proof.
  intros He Hp Hc Hg. unfold_handlers.
  rewrite !given_nonempty, Hc by assumption. simpl. rewrite Hg. reflexivity.
Qed.

Lemma signup_not_refused env w e p code :
  e <> ""%string -> p <> ""%string -> truthy code = true ->
  gate_rejects (get_prop (otps w) e) code (Date_now env) = false ->
  fst (serve env (Signup (Some e) (Some p) code) w) <> Some invalid_otp.
Proof.
  intros He Hp Hc Hg. unfold_handlers.
  rewrite !given_nonempty, Hc by assumption. simpl. rewrite Hg.
  repeat (case_match; simpl in *; simplify_eq; try discriminate).
Qed.

Lemma reset_rejected env w e code q :
  e <> ""%string -> q <> ""%string -> truthy code = true ->
  gate_rejects (get_prop (otps w) e) code (Date_now env) = true ->
  serve env (ResetPassword (Some e) code (Some q)) w = (Some invalid_otp, w).
Proof.
  intros He Hq Hc Hg. unfold_handlers.
  rewrite !given_nonempty, Hc by assumption. simpl. rewrite Hg. reflexivity.
Qed.

Lemma reset_not_refused env w e code q :
  e <> ""%string -> q <> ""%string -> truthy code = true ->
  gate_rejects (get_prop (otps w) e) code (Date_now env) = false ->
  fst (serve env (ResetPassword (Some e) code (Some q)) w) <> Some invalid_otp.
Proof.
  intros He Hq Hc Hg. unfold_handlers.
  rewrite !given_nonempty, Hc by assumption. simpl. rewrite Hg.
  repeat (case_match; simpl in *; simplify_eq; try discriminate).
Qed.

(** C1. With its fields present, a signup or reset-password request passes
    the OTP gate if and only if the registry holds an entry for the identity,
    the submitted code is the stored string itself (a number of the same
    digits is not), and the clock is at most the expiry of the entry.  In
    every other case (no entry, another code, entry expired) both handlers
    answer with the same 400 "Invalid or expired OTP" and leave the world,
    the registry included, as it was. *)
Theorem otp_gate_accepts_exactly_valid_codes env w e p q code :
  e <> ""%string -> p <> ""%string -> q <> ""%string -> truthy code = true ->
  let valid := code_valid (otps w) e code (Date_now env) in
  let on_signup := serve env (Signup (Some e) (Some p) code) w in
  let on_reset := serve env (ResetPassword (Some e) code (Some q)) w in
  (gate_rejects (get_prop (otps w) e) code (Date_now env) = false <-> valid) /\
  (fst on_signup <> Some invalid_otp <-> valid) /\
  (fst on_reset <> Some invalid_otp <-> valid) /\
  (~ valid -> on_signup = (Some invalid_otp, w) /\ on_reset = (Some invalid_otp, w)).
Proof.
  intros He Hp Hq Hc valid on_signup on_reset.
  pose proof (gate_accepts_iff (otps w) e code (Date_now env) Hc) as Hiff.
  fold valid in Hiff.
  destruct (gate_rejects (get_prop (otps w) e) code (Date_now env)) eqn:Hg.
  - assert (Hnv : ~ valid) by (intros Hv; apply Hiff in Hv; discriminate).
    assert (Hs : on_signup = (Some invalid_otp, w))
      by (apply signup_rejected; assumption).
    assert (Hr : on_reset = (Some invalid_otp, w))
      by (apply reset_rejected; assumption).
    rewrite Hs, Hr. simpl. repeat split; try tauto; try congruence.
  - assert (Hv : valid) by (apply Hiff; reflexivity).
    pose proof (signup_not_refused env w e p code He Hp Hc Hg).
    pose proof (reset_not_refused env w e code q He Hq Hc Hg).
    repeat split; tauto.
Qed.

End Gate.

(** ** Verification first, consumption on success *)

Lemma delete_prop_lookup (o : Registry) key :
  key <> "__proto__"%string ->
  delete_prop o key !! key = None /\
  forall k, k <> key -> delete_prop o key !! k = o !! k.
Proof.
  intros Hk. unfold delete_prop.
  destruct (String.eqb_spec key "__proto__"); [contradiction |].
  split; [apply lookup_delete_eq |].
  intros k Hne. apply lookup_delete_ne. congruence.
Qed.

Section Consumption.
Context {B : Bcrypt}.

Lemma signup_passes_gate env w e p code :
  e <> ""%string -> p <> ""%string -> truthy code = true ->
  code_valid (otps w) e code (Date_now env) ->
  serve env (Signup (Some e) (Some p) code) w =
    match
      try_catch
        (let* existing := getUserByEmail e in
         match existing with
         | Some _ => ret duplicate_account
         | None =>
             let* passwordHash := hash p SALT_ROUNDS (salt env) in
             let* user := insert_user (nextval_taken env) e passwordHash in
             let* w := get_world in
             let* _ := put_world (with_otps w (delete_prop (otps w) e)) in
             ret (signup_successful (Row.email user))
         end)
        (ret (status_json 500 (Message "Server error during signup")))
        (w, rejects env)
    with
    | (Done r, (w', _)) => (Some r, w')
    | (Thrown, (w', _)) => (None, w')
    end.
Proof.
  intros He Hp Hc Hv. apply gate_accepts_iff in Hv; [| exact Hc].
  unfold serve, handler, signup.
  rewrite !given_nonempty, Hc by assumption.
  unfold bind at 1, get_world at 1. cbn [fst]. rewrite Hv. reflexivity.
Qed.

Lemma reset_passes_gate env w e code q :
  e <> ""%string -> q <> ""%string -> truthy code = true ->
  code_valid (otps w) e code (Date_now env) ->
  serve env (ResetPassword (Some e) code (Some q)) w =
    match
      try_catch
        (let* user := getUserByEmail e in
         match user with
         | None => ret reset_not_found
         | Some user =>
             let* newHash := hash q SALT_ROUNDS (salt env) in
             let* _ := update_password_hash newHash (Row.id user) in
             let* w := get_world in
             let* _ := put_world (with_otps w (delete_prop (otps w) e)) in
             ret reset_successful
         end)
        (ret (status_json 500 (Message "Server error during reset")))
        (w, rejects env)
    with
    | (Done r, (w', _)) => (Some r, w')
    | (Thrown, (w', _)) => (None, w')
    end.
Proof.
  intros He Hq Hc Hv. apply gate_accepts_iff in Hv; [| exact Hc].
  unfold serve, handler, reset_password.
  rewrite !given_nonempty, Hc by assumption.
  unfold bind at 1, get_world at 1. cbn [fst]. rewrite Hv. reflexivity.
Qed.

Lemma signup_duplicate env w e p code u :
  e <> ""%string -> p <> ""%string -> truthy code = true ->
  code_valid (otps w) e code (Date_now env) ->
  calm (rejects env) -> account w e = Some u ->
  serve env (Signup (Some e) (Some p) code) w = (Some duplicate_account, w).
Proof.
  intros He Hp Hc Hv Hcalm Hu. rewrite signup_passes_gate by assumption.
  unfold_handlers. simpl. next_await; rewrite Hu; reflexivity.
Qed.

Lemma reset_unknown env w e code q :
  e <> ""%string -> q <> ""%string -> truthy code = true ->
  code_valid (otps w) e code (Date_now env) ->
  calm (rejects env) -> account w e = None ->
  serve env (ResetPassword (Some e) code (Some q)) w = (Some reset_not_found, w).
Proof.
  intros He Hq Hc Hv Hcalm Hu. rewrite reset_passes_gate by assumption.
  unfold_handlers. simpl. next_await; rewrite Hu; reflexivity.
Qed.

Lemma signup_consumes_on_success env w e p code :
  e <> ""%string -> p <> ""%string -> truthy code = true ->
  code_valid (otps w) e code (Date_now env) ->
  let served := serve env (Signup (Some e) (Some p) code) w in
  (fst served = Some (signup_successful e) /\
   otps (snd served) = delete_prop (otps w) e) \/
  (fst served <> Some (signup_successful e) /\ otps (snd served) = otps w).
Proof.
  intros He Hp Hc Hv. rewrite signup_passes_gate by assumption.
  unfold_handlers. simpl.
  repeat (case_match; simpl in *; simplify_eq;
          try (right; split; [discriminate | reflexivity])).
  all: left; split; reflexivity.
Qed.

Lemma reset_consumes_on_success env w e code q :
  e <> ""%string -> q <> ""%string -> truthy code = true ->
  code_valid (otps w) e code (Date_now env) ->
  let served := serve env (ResetPassword (Some e) code (Some q)) w in
  (fst served = Some reset_successful /\
   otps (snd served) = delete_prop (otps w) e) \/
  (fst served <> Some reset_successful /\ otps (snd served) = otps w).
Proof.
  intros He Hq Hc Hv. rewrite reset_passes_gate by assumption.
  unfold_handlers. simpl.
  repeat (case_match; simpl in *; simplify_eq;
          try (right; split; [discriminate | reflexivity])).
  all: left; split; reflexivity.
Qed.

(** C2, as amended.  In signup and reset-password the OTP gate runs before the
    storage lookup and only verifies.  When the gate passes and the workflow
    is then rejected (duplicate account on signup, identity not found on
    reset-password) the world is left as it was, the OTP entry included; the
    entry stays as well on every other outcome that is not the success
    response.  Only the success path, after its storage mutation, runs
    [delete otps[email]], which removes the entry of every identity other than
    the key ["__proto__"]. *)
Theorem gate_verifies_and_success_consumes env w e p q code :
  e <> ""%string -> p <> ""%string -> q <> ""%string -> truthy code = true ->
  code_valid (otps w) e code (Date_now env) ->
  let on_signup := serve env (Signup (Some e) (Some p) code) w in
  let on_reset := serve env (ResetPassword (Some e) code (Some q)) w in
  (calm (rejects env) -> account w e <> None ->
   on_signup = (Some duplicate_account, w)) /\
  (calm (rejects env) -> account w e = None ->
   on_reset = (Some reset_not_found, w)) /\
  ((fst on_signup = Some (signup_successful e) /\
    otps (snd on_signup) = delete_prop (otps w) e) \/
   (fst on_signup <> Some (signup_successful e) /\
    otps (snd on_signup) = otps w)) /\
  ((fst on_reset = Some reset_successful /\
    otps (snd on_reset) = delete_prop (otps w) e) \/
   (fst on_reset <> Some reset_successful /\
    otps (snd on_reset) = otps w)) /\
  (e <> "__proto__"%string ->
   delete_prop (otps w) e !! e = None /\
   forall k, k <> e -> delete_prop (otps w) e !! k = otps w !! k).
Proof.
  intros He Hp Hq Hc Hv on_signup on_reset.
  split; [| split; [| split; [| split]]].
  - intros Hcalm Hu. destruct (account w e) as [u |] eqn:Hacc; [| congruence].
    eapply signup_duplicate; eassumption.
  - intros Hcalm Hu. apply reset_unknown; assumption.
  - apply signup_consumes_on_success; assumption.
  - apply reset_consumes_on_success; assumption.
  - apply delete_prop_lookup.
Qed.

End Consumption.

(** C1, on an instance: [alice] submits the pending code in time. *)
Lemma otp_gate_accepts_exactly_valid_codes_witness :
  let e := Sample.alice in
  let code := JStr "550000" in
  (e <> ""%string /\ "pw"%string <> ""%string /\ "new"%string <> ""%string /\
   truthy code = true) /\
  let valid := code_valid (otps Sample.pending) e code (Date_now Sample.env) in
  let on_signup :=
    serve (B := Toy.bcrypt) Sample.env (Signup (Some e) (Some "pw"%string) code)
      Sample.pending in
  let on_reset :=
    serve (B := Toy.bcrypt) Sample.env
      (ResetPassword (Some e) code (Some "new"%string)) Sample.pending in
  (gate_rejects (get_prop (otps Sample.pending) e) code (Date_now Sample.env)
     = false <-> valid) /\
  (fst on_signup <> Some invalid_otp <-> valid) /\
  (fst on_reset <> Some invalid_otp <-> valid) /\
  (~ valid ->
   on_signup = (Some invalid_otp, Sample.pending) /\
   on_reset = (Some invalid_otp, Sample.pending)).
Proof.
  intros e code.
  split; [repeat split; discriminate |].
  apply (otp_gate_accepts_exactly_valid_codes (B := Toy.bcrypt) Sample.env
           Sample.pending e "pw" "new" code);
    [discriminate | discriminate | discriminate | reflexivity].
Defined.

(** C2 fails as stated: the gate passes, the signup is rejected as a
    duplicate and the reset as an unknown identity, and in both cases the
    entry is still in the registry. *)
Lemma gate_pass_then_rejection_keeps_entry :
  let code := JStr "550000" in
  let on_signup :=
    serve (B := Toy.bcrypt) Sample.env
      (Signup (Some Sample.alice) (Some "pw"%string) code) Sample.registered in
  let on_reset :=
    serve (B := Toy.bcrypt) Sample.env
      (ResetPassword (Some Sample.alice) code (Some "new"%string))
      Sample.pending in
  (gate_rejects (get_prop (otps Sample.registered) Sample.alice) code
     (Date_now Sample.env) = false /\
   fst on_signup = Some duplicate_account /\
   otps (snd on_signup) !! Sample.alice = Some Sample.entry) /\
  (gate_rejects (get_prop (otps Sample.pending) Sample.alice) code
     (Date_now Sample.env) = false /\
   fst on_reset = Some reset_not_found /\
   otps (snd on_reset) !! Sample.alice = Some Sample.entry).
Proof. vm_compute. repeat split; reflexivity. Qed.

(** C2 as amended, on an instance. *)
Lemma gate_verifies_and_success_consumes_witness :
  let e := Sample.alice in
  let code := JStr "550000" in
  let w := Sample.registered in
  (e <> ""%string /\ "pw"%string <> ""%string /\ "new"%string <> ""%string /\
   truthy code = true /\ code_valid (otps w) e code (Date_now Sample.env)) /\
  let on_signup :=
    serve (B := Toy.bcrypt) Sample.env (Signup (Some e) (Some "pw"%string) code) w in
  let on_reset :=
    serve (B := Toy.bcrypt) Sample.env
      (ResetPassword (Some e) code (Some "new"%string)) w in
  (calm (rejects Sample.env) -> account w e <> None ->
   on_signup = (Some duplicate_account, w)) /\
  (calm (rejects Sample.env) -> account w e = None ->
   on_reset = (Some reset_not_found, w)) /\
  ((fst on_signup = Some (signup_successful e) /\
    otps (snd on_signup) = delete_prop (otps w) e) \/
   (fst on_signup <> Some (signup_successful e) /\
    otps (snd on_signup) = otps w)) /\
  ((fst on_reset = Some reset_successful /\
    otps (snd on_reset) = delete_prop (otps w) e) \/
   (fst on_reset <> Some reset_successful /\
    otps (snd on_reset) = otps w)) /\
  (e <> "__proto__"%string ->
   delete_prop (otps w) e !! e = None /\
   forall k, k <> e -> delete_prop (otps w) e !! k = otps w !! k).
Proof.
  intros e code w.
  assert (Hv : code_valid (otps w) e code (Date_now Sample.env)).
  { exists Sample.entry. split; [reflexivity | split; [reflexivity | discriminate]]. }
  split; [repeat split; solve [discriminate | exact Hv] |].
  apply (gate_verifies_and_success_consumes (B := Toy.bcrypt) Sample.env w e
           "pw" "new" code);
    [discriminate | discriminate | discriminate | reflexivity | exact Hv].
Defined.

(** ** Issuing a code *)

Lemma digits_go_cons fuel : forall n acc,
  exists c rest, digits_go (S fuel) n acc = String c rest.
Proof.
  induction fuel as [| fuel IH]; intros n acc; cbn [digits_go].
  - destruct (n <? 10); eauto.
  - destruct (n <? 10); [eauto |]. apply IH.
Qed.

(** Whatever is drawn, the generated code is not the empty string. *)
Lemma generateOtp_truthy r : truthy (JStr (generateOtp r)) = true.
Proof.
  unfold generateOtp, number_toString, truthy.
  destruct (_ <? 0); [reflexivity |].
  match goal with
  | |- context [digits_go (S ?f) ?n ?acc] =>
      destruct (digits_go_cons f n acc) as (c & rest & ->)
  end.
  reflexivity.
Qed.

(** For a draw in [0, 1) the code is six decimal digits, the first of them
    not zero, and denotes an integer from 100000 to 999999. *)
Lemma generateOtp_six_digits r :
  F64.is_double r -> r < F64.one ->
  String.length (generateOtp r) = 6%nat /\
  (exists n, decimal_value (generateOtp r) = Some n /\ 100000 <= n <= 999999) /\
  (exists c rest, generateOtp r = String c rest /\ c <> "0"%char).
Proof.
  intros Hd Hlt.
  pose proof (F64Facts.generateOtp_number_range r Hd Hlt) as Hn.
  unfold generateOtp.
  set (n := F64.floor _) in *.
  split; [| split].
  - rewrite six_digits by exact Hn. reflexivity.
  - exists n. split; [apply generated_value; exact Hn | exact Hn].
  - rewrite six_digits by exact Hn. eexists _, _. split; [reflexivity |].
    assert (Hd1 : 1 <= n / 100000 mod 10 <= 9) by (Z.div_mod_to_equations; lia).
    set (d := n / 100000 mod 10) in *.
    assert (Hcases : d = 1 \/ d = 2 \/ d = 3 \/ d = 4 \/ d = 5 \/ d = 6 \/
                     d = 7 \/ d = 8 \/ d = 9) by lia.
    repeat (destruct Hcases as [-> | Hcases]; [discriminate |]).
    subst d. rewrite Hcases. discriminate.
Qed.

Section Issue.
Context {B : Bcrypt}.

(** What [send_otp] does for a present identity, whatever the transport
    answers. *)
Lemma send_otp_serves env w e :
  e <> ""%string ->
  serve env (SendOtp (Some e)) w =
    (Some match rejects env with
          | true :: _ => otp_send_failed
          | _ => otp_sent
          end,
     with_outbox (with_otps w (set_prop (otps w) e (issued env)))
       (outbox w ++ [mailOptions e (generateOtp (Math_random env))])).
Proof.
  intros He. unfold_handlers. rewrite given_nonempty by exact He. simpl.
  destruct (rejects env) as [| [] fs]; reflexivity.
Qed.

(** C3. For every non-empty identity string, [send_otp] generates a code of
    six decimal digits without a leading zero, whose value is between 100000
    and 999999, stores for the identity the entry with that code and the
    expiry [now + 5 minutes] (300000 ms), and passes that same code on to the
    mail transport; it does so whether or not the transport then fails, and
    always answers. *)
Theorem send_otp_issues_six_digit_code env w e :
  e <> ""%string ->
  F64.is_double (Math_random env) -> Math_random env < F64.one ->
  let code := generateOtp (Math_random env) in
  let served := serve env (SendOtp (Some e)) w in
  (String.length code = 6%nat /\
   (exists n, decimal_value code = Some n /\ 100000 <= n <= 999999) /\
   (exists c rest, code = String c rest /\ c <> "0"%char)) /\
  otps (snd served) !! e =
    Some {| otp := code; expiresAt := Date_now env + 300000 |} /\
  outbox (snd served) = outbox w ++ [mailOptions e code] /\
  (fst served = Some otp_sent \/ fst served = Some otp_send_failed).
Proof.
  intros He Hd Hlt code served. subst served.
  rewrite send_otp_serves by exact He. cbn [fst snd].
  split; [apply generateOtp_six_digits; assumption |].
  split; [apply lookup_insert_eq |].
  split; [reflexivity |].
  destruct (rejects env) as [| [] fs]; auto.
Qed.

(** C8. When the transport fails, [send_otp] answers 500, yet the entry was
    stored before the send and is still there: up to its expiry, five
    minutes after the issuance, a signup or a reset-password with that code
    passes the gate. *)
Theorem failed_send_leaves_usable_entry env w e flags :
  e <> ""%string -> rejects env = true :: flags ->
  let code := generateOtp (Math_random env) in
  let served := serve env (SendOtp (Some e)) w in
  fst served = Some otp_send_failed /\
  otps (snd served) !! e =
    Some {| otp := code; expiresAt := Date_now env + 300000 |} /\
  forall env' p q,
    p <> ""%string -> q <> ""%string ->
    Date_now env' <= Date_now env + 300000 ->
    gate_rejects (get_prop (otps (snd served)) e) (JStr code) (Date_now env')
      = false /\
    fst (serve env' (Signup (Some e) (Some p) (JStr code)) (snd served))
      <> Some invalid_otp /\
    fst (serve env' (ResetPassword (Some e) (JStr code) (Some q)) (snd served))
      <> Some invalid_otp.
Proof.
  intros He Hfail code served. subst served.
  rewrite send_otp_serves by exact He. rewrite Hfail. cbn [fst snd].
  split; [reflexivity |].
  assert (Hentry : set_prop (otps w) e (issued env) !! e = Some (issued env))
    by apply lookup_insert_eq.
  split; [exact Hentry |].
  intros env' p q Hp Hq Hnow.
  set (w' := with_outbox _ _).
  assert (Hc : truthy (JStr code) = true) by apply generateOtp_truthy.
  assert (Hv : code_valid (otps w') e (JStr code) (Date_now env')).
  { exists (issued env). split; [exact Hentry | split; [reflexivity | exact Hnow]]. }
  assert (Hg : gate_rejects (get_prop (otps w') e) (JStr code) (Date_now env') = false)
    by (apply gate_accepts_iff; [exact Hc | exact Hv]).
  split; [exact Hg |].
  split; [apply signup_not_refused | apply reset_not_refused]; assumption.
Qed.

End Issue.

(** C3, on an instance: the draw 0.5 gives the code 550000. *)
Lemma send_otp_issues_six_digit_code_witness :
  let env := Sample.env in
  let e := Sample.alice in
  let w := Sample.fresh in
  (e <> ""%string /\ F64.is_double (Math_random env) /\
   Math_random env < F64.one) /\
  let code := generateOtp (Math_random env) in
  let served := serve (B := Toy.bcrypt) env (SendOtp (Some e)) w in
  (String.length code = 6%nat /\
   (exists n, decimal_value code = Some n /\ 100000 <= n <= 999999) /\
   (exists c rest, code = String c rest /\ c <> "0"%char)) /\
  otps (snd served) !! e =
    Some {| otp := code; expiresAt := Date_now env + 300000 |} /\
  outbox (snd served) = outbox w ++ [mailOptions e code] /\
  (fst served = Some otp_sent \/ fst served = Some otp_send_failed).
Proof.
  intros env e w.
  assert (Hd : F64.is_double (Math_random env)).
  { split; [discriminate | vm_compute; reflexivity]. }
  assert (Hlt : Math_random env < F64.one) by (vm_compute; reflexivity).
  split; [repeat split; solve [discriminate | apply Hd | exact Hlt] |].
  apply (send_otp_issues_six_digit_code (B := Toy.bcrypt) env w e);
    [discriminate | exact Hd | exact Hlt].
Defined.

(** C8, on an instance. *)
Lemma failed_send_leaves_usable_entry_witness :
  let env := Sample.env_failing in
  let e := Sample.alice in
  let w := Sample.fresh in
  (e <> ""%string /\ rejects env = [true]) /\
  let code := generateOtp (Math_random env) in
  let served := serve (B := Toy.bcrypt) env (SendOtp (Some e)) w in
  fst served = Some otp_send_failed /\
  otps (snd served) !! e =
    Some {| otp := code; expiresAt := Date_now env + 300000 |} /\
  forall env' p q,
    p <> ""%string -> q <> ""%string ->
    Date_now env' <= Date_now env + 300000 ->
    gate_rejects (get_prop (otps (snd served)) e) (JStr code) (Date_now env')
      = false /\
    fst (serve (B := Toy.bcrypt) env' (Signup (Some e) (Some p) (JStr code))
           (snd served)) <> Some invalid_otp /\
    fst (serve (B := Toy.bcrypt) env' (ResetPassword (Some e) (JStr code) (Some q))
           (snd served)) <> Some invalid_otp.
Proof.
  intros env e w.
  split; [split; [discriminate | reflexivity] |].
  apply (failed_send_leaves_usable_entry (B := Toy.bcrypt) env w e []);
    [discriminate | reflexivity].
Defined.

(** ** The registry along a run *)

Section RegistryRuns.
Context {B : Bcrypt}.

(** What one request can do to the registry: nothing, store the issued entry
    ([send_otp]), or delete a property (the success path of signup and
    reset-password). *)
Lemma serve_registry env rq w :
  let o' := otps (snd (serve env rq w)) in
  o' = otps w \/
  (exists e, rq = SendOtp (Some e) /\ e <> ""%string /\
             o' = set_prop (otps w) e (issued env)) \/
  (exists e, (forall email, rq <> SendOtp email) /\ o' = delete_prop (otps w) e).
Proof.
  destruct rq as [email | email password code | email password
                 | email code newPassword | email | b |]; cbn zeta.
  - destruct email as [e |]; [| left; reflexivity].
    destruct (String.eqb_spec e ""); [subst; left; reflexivity |].
    right; left. exists e. rewrite send_otp_serves by assumption. auto.
  - unfold_handlers. unfold given.
    repeat (case_match; simpl in *; simplify_eq; try (left; reflexivity)).
    all: right; right; eexists; split; [discriminate | reflexivity].
  - unfold_handlers. unfold given.
    repeat (case_match; simpl in *; simplify_eq; try (left; reflexivity)).
  - unfold_handlers. unfold given.
    repeat (case_match; simpl in *; simplify_eq; try (left; reflexivity)).
    all: right; right; eexists; split; [discriminate | reflexivity].
  - unfold_handlers. unfold given.
    repeat (case_match; simpl in *; simplify_eq; try (left; reflexivity)).
  - unfold_handlers. unfold given.
    repeat (case_match; simpl in *; simplify_eq; try (left; reflexivity)).
  - unfold_handlers.
    repeat (case_match; simpl in *; simplify_eq; try (left; reflexivity)).
Qed.

(** Every request is answered: no handler throws outside its [try]. *)
Lemma serve_answers env rq w : fst (serve env rq w) <> None.
Proof.
  destruct rq; unfold_handlers; unfold given;
    repeat (case_match; simpl in *; simplify_eq; try discriminate).
Qed.

Lemma delete_prop_sub (o : Registry) key k ent :
  delete_prop o key !! k = Some ent -> o !! k = Some ent.
Proof.
  unfold delete_prop. destruct (String.eqb key "__proto__"); [tauto |].
  rewrite lookup_delete_Some. tauto.
Qed.

(** Only [send_otp] adds or replaces an entry. *)
Lemma serve_adds_no_entry env rq w k ent :
  (forall email, rq <> SendOtp email) ->
  otps (snd (serve env rq w)) !! k = Some ent -> otps w !! k = Some ent.
Proof.
  intros Hrq. destruct (serve_registry env rq w) as [-> | [H | H]].
  - tauto.
  - destruct H as (e & -> & _). exfalso. eapply Hrq. reflexivity.
  - destruct H as (e & _ & ->). apply delete_prop_sub.
Qed.

(** Every entry found after a run was in the registry at its start or was
    issued for that identity by a [send_otp] of the run. *)
Lemma entry_provenance trace : forall w k ent,
  otps (serve_all trace w) !! k = Some ent ->
  otps w !! k = Some ent \/
  exists env, In (env, SendOtp (Some k)) trace /\ ent = issued env.
Proof.
  induction trace as [| [env rq] trace IH]; intros w k ent Hk; [left; exact Hk |].
  cbn [serve_all] in Hk. apply IH in Hk as [Hk | (env' & Hin & ->)].
  - destruct (serve_registry env rq w) as [Ho | [H | H]].
    + rewrite Ho in Hk. left. exact Hk.
    + destruct H as (e & -> & _ & Ho). rewrite Ho in Hk. unfold set_prop in Hk.
      destruct (decide (e = k)) as [-> | Hne].
      * rewrite lookup_insert_eq in Hk. injection Hk as <-.
        right. exists env. split; [left; reflexivity | reflexivity].
      * rewrite lookup_insert_ne in Hk by exact Hne. left. exact Hk.
    + destruct H as (e & _ & Ho). rewrite Ho in Hk. left.
      eapply delete_prop_sub. exact Hk.
  - right. exists env'. split; [right; exact Hin | reflexivity].
Qed.

(** C4. The registry holds at most one entry per identity: along every run
    from the start of the process the identities of its entries are pairwise
    distinct, and each entry is the one issued for its identity by a
    [send_otp] of the run.  A [send_otp] for an identity stores the new entry
    under it, touching no other identity, and replaces the previous entry of
    that identity when there is one (the number of entries stays the same)
    rather than adding a second one.  No other request adds an entry: what
    the registry holds after it, it held before. *)
Theorem registry_one_entry_per_identity :
  (forall db trace,
     let o := otps (serve_all trace (boot db)) in
     NoDup (map_to_list o).*1 /\
     forall k ent, o !! k = Some ent ->
       exists env, In (env, SendOtp (Some k)) trace /\ ent = issued env) /\
  (forall env w e,
     e <> ""%string ->
     let o' := otps (snd (serve env (SendOtp (Some e)) w)) in
     o' !! e = Some (issued env) /\
     (forall k, k <> e -> o' !! k = otps w !! k) /\
     size o' = match otps w !! e with
               | Some _ => size (otps w)
               | None => S (size (otps w))
               end) /\
  (forall env rq w k ent,
     (forall email, rq <> SendOtp email) ->
     otps (snd (serve env rq w)) !! k = Some ent -> otps w !! k = Some ent).
Proof.
  split; [| split].
  - intros db trace o. split; [apply NoDup_fst_map_to_list |].
    intros k ent Hk. apply entry_provenance in Hk as [Hk | Hk]; [| exact Hk].
    unfold boot, with_otps, empty_registry in Hk. cbn [otps] in Hk.
    rewrite lookup_empty in Hk. discriminate.
  - intros env w e He o'. subst o'. rewrite send_otp_serves by exact He.
    cbn [snd otps with_outbox with_otps]. unfold set_prop.
    split; [apply lookup_insert_eq |].
    split; [intros k Hk; apply lookup_insert_ne; congruence |].
    rewrite map_size_insert. destruct (otps w !! e); reflexivity.
  - intros env rq w k ent Hrq. apply serve_adds_no_entry. exact Hrq.
Qed.

End RegistryRuns.

(** ** Accounts *)

Lemma find_app_first {A} (p : A -> bool) l l' :
  List.find p (l ++ l') =
    match List.find p l with Some x => Some x | None => List.find p l' end.
Proof.
  induction l as [| x l IH]; simpl; [reflexivity |].
  destruct (p x); [reflexivity | exact IH].
Qed.

(** An update that keeps the email of the rows keeps the row a lookup by
    email finds, updated when its id is the one updated. *)
Lemma account_update w email id f seq :
  (forall u, Row.email (f u) = Row.email u) ->
  account (with_users w (update_where_id id f (users w)) seq) email =
    match account w email with
    | Some u => Some (if Row.id u =? id then f u else u)
    | None => None
    end.
Proof.
  intros Hf. unfold account, update_where_id. cbn [users with_users].
  induction (users w) as [| x l IH]; simpl; [reflexivity |].
  replace (Row.email (if Row.id x =? id then f x else x)) with (Row.email x)
    by (destruct (Row.id x =? id); [rewrite Hf |]; reflexivity).
  destruct (String.eqb (Row.email x) email); [reflexivity | exact IH].
Qed.

Lemma Toy_sound : BcryptSound Toy.bcrypt.
Proof.
  split.
  - intros data rounds salt. apply String.eqb_refl.
  - intros data rounds salt. simpl. intros H.
    apply (f_equal String.length) in H. simpl in H. lia.
Qed.

Section Accounts.
Context {B : Bcrypt}.

Lemma signup_creates env w e p code :
  e <> ""%string -> p <> ""%string -> truthy code = true ->
  code_valid (otps w) e code (Date_now env) ->
  calm (rejects env) -> account w e = None ->
  serve env (Signup (Some e) (Some p) code) w =
    (Some (signup_successful e),
     with_otps
       (with_users w
          (users w ++
           [new_account (users_id_seq w) e
              (bcrypt_hash p SALT_ROUNDS (salt env))])
          (users_id_seq w + 1))
       (delete_prop (otps w) e)).
Proof.
  intros He Hp Hc Hv Hcalm Hu. rewrite signup_passes_gate by assumption.
  unfold_handlers. simpl.
  repeat (next_await; rewrite ?Hu; simpl); reflexivity.
Qed.

(** What one request can do to the table [users]. *)
Lemma serve_users env rq w :
  let w' := snd (serve env rq w) in
  users w' = users w \/
  (exists u, users w' = users w ++ [u]) \/
  (exists id f, (forall u, Row.email (f u) = Row.email u) /\
                users w' = update_where_id id f (users w)).
Proof.
  destruct rq as [email | email password code | email password
                 | email code newPassword | email | b |]; cbn zeta;
    unfold_handlers; unfold given;
    repeat (case_match; simpl in *; simplify_eq; try (left; reflexivity)).
  all: first
    [ right; left; eexists; reflexivity
    | right; right; eexists _, _; split; [| reflexivity]; intros []; reflexivity ].
Qed.

Lemma account_kept env rq w email :
  account w email <> None -> account (snd (serve env rq w)) email <> None.
Proof.
  intros Hacc. unfold account in *.
  destruct (serve_users env rq w) as [-> | [(u & ->) | (id & f & Hf & ->)]].
  - exact Hacc.
  - rewrite find_app_first. destruct (List.find _ (users w)); [discriminate | tauto].
  - pose proof (account_update w email id f (users_id_seq w) Hf) as Hupd.
    unfold account in Hupd. cbn [users with_users] in Hupd. rewrite Hupd.
    destruct (List.find _ (users w)); [discriminate | tauto].
Qed.

Lemma account_kept_all trace : forall w email,
  account w email <> None -> account (serve_all trace w) email <> None.
Proof.
  induction trace as [| [env rq] trace IH]; intros w email H; [exact H |].
  cbn [serve_all]. apply IH. apply account_kept. exact H.
Qed.

(** C5. For an identity with no account, a signup with its three fields
    present and a valid pending code, whose collaborators answer, succeeds and
    appends exactly one row to [users]: the row of that identity, holding the
    [bcrypt] hash of the submitted password (which is not the password) and
    no profile field.  From then on, whatever requests come in between
    (a new [send_otp] among them), a signup for the same identity that passes
    the gate is rejected as a duplicate account and changes nothing. *)
Theorem signup_creates_one_account {S : BcryptSound B} env w e p code :
  e <> ""%string -> p <> ""%string -> truthy code = true ->
  code_valid (otps w) e code (Date_now env) ->
  calm (rejects env) -> account w e = None ->
  let served := serve env (Signup (Some e) (Some p) code) w in
  let created :=
    new_account (users_id_seq w) e (bcrypt_hash p SALT_ROUNDS (salt env)) in
  fst served = Some (signup_successful e) /\
  users (snd served) = users w ++ [created] /\
  login_events (snd served) = login_events w /\
  account (snd served) e = Some created /\
  Row.email created = e /\
  Row.password_hash created = bcrypt_hash p SALT_ROUNDS (salt env) /\
  Row.password_hash created <> p /\
  (forall f, column created f = JNull) /\
  Row.work_tags created = None /\
  forall trace env' p' code',
    let later := serve_all trace (snd served) in
    p' <> ""%string -> truthy code' = true ->
    code_valid (otps later) e code' (Date_now env') ->
    calm (rejects env') ->
    serve env' (Signup (Some e) (Some p') code') later
      = (Some duplicate_account, later).
Proof.
  intros He Hp Hc Hv Hcalm Hu served created. subst served.
  rewrite signup_creates by assumption. cbn [fst snd].
  assert (Hacc : account
            (with_otps
               (with_users w (users w ++ [created]) (users_id_seq w + 1))
               (delete_prop (otps w) e)) e = Some created).
  { unfold account in *. cbn [users with_otps with_users].
    rewrite find_app_first, Hu. simpl. rewrite String.eqb_refl. reflexivity. }
  split; [reflexivity |]. split; [reflexivity |]. split; [reflexivity |].
  split; [exact Hacc |]. split; [reflexivity |]. split; [reflexivity |].
  split; [apply hash_not_plaintext |].
  split; [intros []; reflexivity |]. split; [reflexivity |].
  intros trace env' p' code'. set (later := serve_all trace _).
  intros Hp' Hc' Hv' Hcalm'.
  assert (Hlater : account later e <> None).
  { apply account_kept_all. fold created. rewrite Hacc. discriminate. }
  destruct (account later e) as [u |] eqn:Hl; [| congruence].
  eapply signup_duplicate; eassumption.
Qed.

(** ** Login *)

Lemma login_serves env w e p :
  e <> ""%string -> p <> ""%string -> calm (rejects env) ->
  serve env (Login (Some e) (Some p)) w =
    match account w e with
    | None => (Some login_not_found, w)
    | Some u =>
        if bcrypt_compare p (Row.password_hash u)
        then (Some (login_successful (Row.email u)),
              with_login_events w (login_events w ++ [Row.id u]))
        else (Some invalid_password, w)
    end.
Proof.
  intros He Hp Hcalm. unfold_handlers. rewrite !given_nonempty by assumption.
  simpl. destruct (account w e) as [u |] eqn:Hu.
  - destruct (bcrypt_compare p (Row.password_hash u)) eqn:Hok;
      repeat (next_await; rewrite ?Hu, ?Hok; simpl); reflexivity.
  - next_await; rewrite Hu; reflexivity.
Qed.

(** Login runs the same and leaves the same storage whatever the registry
    holds, and hands the registry back as it got it. *)
Lemma login_ignores_registry env w (o : Registry) email password :
  serve env (Login email password) (with_otps w o) =
    (fst (serve env (Login email password) w),
     with_otps (snd (serve env (Login email password) w)) o).
Proof.
  unfold_handlers. unfold given, account.
  repeat (case_match; simpl in *; simplify_eq; try reflexivity).
Qed.

(** C6. A login with both fields present never reads or changes the OTP
    registry.  When the storage answers: for an identity without account it
    answers 404 "not found", which is not the answer to a bad password, and
    changes nothing; for an account whose stored hash the password does not
    verify against it answers 400 "Invalid password" and changes nothing, so
    no audit record is appended; and when the password verifies it appends
    exactly one login event, carrying the id of that account, and reports
    success. *)
Theorem login_outcomes env w e p :
  e <> ""%string -> p <> ""%string ->
  let served := serve env (Login (Some e) (Some p)) w in
  (forall o : Registry,
     serve env (Login (Some e) (Some p)) (with_otps w o)
       = (fst served, with_otps (snd served) o)) /\
  otps (snd served) = otps w /\
  login_not_found <> invalid_password /\
  (calm (rejects env) ->
   match account w e with
   | None => served = (Some login_not_found, w)
   | Some u =>
       if bcrypt_compare p (Row.password_hash u)
       then fst served = Some (login_successful e) /\
            login_events (snd served) = login_events w ++ [Row.id u] /\
            users (snd served) = users w
       else served = (Some invalid_password, w)
   end).
Proof.
  intros He Hp served.
  split; [intros o; apply login_ignores_registry |].
  split.
  { pose proof (login_ignores_registry env w (otps w) (Some e) (Some p)) as Hi.
    replace (with_otps w (otps w)) with w in Hi by (destruct w; reflexivity).
    fold served in Hi. apply (f_equal snd) in Hi. cbn [snd] in Hi.
    rewrite Hi. reflexivity. }
  split; [discriminate |].
  intros Hcalm. subst served. rewrite login_serves by assumption.
  destruct (account w e) as [u |] eqn:Hu; [| reflexivity].
  destruct (bcrypt_compare p (Row.password_hash u)); [| reflexivity].
  cbn [fst snd]. split; [| split; reflexivity].
  unfold account in Hu. apply List.find_some in Hu as [_ Heq].
  apply String.eqb_eq in Heq. rewrite Heq. reflexivity.
Qed.

(** ** Password reset *)

Lemma reset_updates env w e code q u :
  e <> ""%string -> q <> ""%string -> truthy code = true ->
  code_valid (otps w) e code (Date_now env) ->
  calm (rejects env) -> account w e = Some u ->
  serve env (ResetPassword (Some e) code (Some q)) w =
    (Some reset_successful,
     with_otps
       (with_users w
          (update_where_id (Row.id u)
             (set_password_hash (bcrypt_hash q SALT_ROUNDS (salt env)))
             (users w))
          (users_id_seq w))
       (delete_prop (otps w) e)).
Proof.
  intros He Hq Hc Hv Hcalm Hu. rewrite reset_passes_gate by assumption.
  unfold_handlers. simpl.
  repeat (next_await; rewrite ?Hu; simpl); reflexivity.
Qed.

Lemma update_where_id_other id f us v :
  In v us -> Row.id v <> id -> In v (update_where_id id f us).
Proof.
  intros Hin Hne. unfold update_where_id. apply List.in_map_iff.
  exists v. split; [| exact Hin].
  destruct (Z.eqb_spec (Row.id v) id); [contradiction | reflexivity].
Qed.

(** C7, as amended.  For an existing account, a reset-password with its three
    fields present and a valid pending code, whose collaborators answer,
    overwrites the stored hash of that account with the [bcrypt] hash of the
    new password.  Afterwards the new password verifies against the stored
    hash, and any password, the old one included, verifies exactly when it
    verifies against that new hash: the old password is refused when it does
    not, and is still accepted when it does, as when the new password is the
    old one.  No other field of the account changes, and no row with another
    id changes. *)
Theorem reset_overwrites_hash {S : BcryptSound B} env w e code q u :
  e <> ""%string -> q <> ""%string -> truthy code = true ->
  code_valid (otps w) e code (Date_now env) ->
  calm (rejects env) -> account w e = Some u ->
  let served := serve env (ResetPassword (Some e) code (Some q)) w in
  let newHash := bcrypt_hash q SALT_ROUNDS (salt env) in
  fst served = Some reset_successful /\
  (exists u',
     account (snd served) e = Some u' /\
     Row.password_hash u' = newHash /\
     bcrypt_compare q (Row.password_hash u') = true /\
     (forall old,
        bcrypt_compare old (Row.password_hash u') = bcrypt_compare old newHash) /\
     Row.id u' = Row.id u /\ Row.email u' = Row.email u /\
     (forall f, column u' f = column u f) /\
     Row.work_tags u' = Row.work_tags u) /\
  (forall v, In v (users w) -> Row.id v <> Row.id u -> In v (users (snd served))) /\
  login_events (snd served) = login_events w.
Proof.
  intros He Hq Hc Hv Hcalm Hu served newHash. subst served.
  rewrite (reset_updates env w e code q u) by assumption. cbn [fst snd].
  split; [reflexivity |]. split; [| split; [| reflexivity]].
  - exists (set_password_hash newHash u).
    split.
    { unfold account. cbn [users with_otps].
      pose proof (account_update w e (Row.id u) (set_password_hash newHash)
                    (users_id_seq w) (fun _ => eq_refl)) as Hupd.
      unfold account in Hupd, Hu. rewrite Hu, Z.eqb_refl in Hupd. exact Hupd. }
    cbn [set_password_hash Row.password_hash Row.id Row.email Row.work_tags].
    split; [reflexivity |]. split; [apply compare_hash |].
    split; [reflexivity |]. split; [reflexivity |]. split; [reflexivity |].
    split; [intros []; reflexivity | reflexivity].
  - intros v Hin Hne. cbn [users with_otps with_users].
    apply update_where_id_other; assumption.
Qed.

End Accounts.

(** C5, on an instance: [alice] signs up with the pending code; after a new
    code is issued for her, a second signup is refused as a duplicate. *)
Lemma signup_creates_one_account_witness :
  let env := Sample.env in
  let w := Sample.pending in
  let e := Sample.alice in
  let p := "pw"%string in
  let code := JStr "550000" in
  (e <> ""%string /\ p <> ""%string /\ truthy code = true /\
   code_valid (otps w) e code (Date_now env) /\
   calm (rejects env) /\ account w e = None) /\
  let served := serve (B := Toy.bcrypt) env (Signup (Some e) (Some p) code) w in
  let later :=
    serve_all (B := Toy.bcrypt) [(env, SendOtp (Some e))] (snd served) in
  fst served = Some (signup_successful e) /\
  users (snd served) = users w ++ [Sample.row] /\
  login_events (snd served) = login_events w /\
  serve (B := Toy.bcrypt) env (Signup (Some e) (Some "other"%string) code) later
    = (Some duplicate_account, later).
Proof.
  intros env w e p code.
  assert (Hv : code_valid (otps w) e code (Date_now env)).
  { exists Sample.entry. split; [reflexivity | split; [reflexivity | discriminate]]. }
  assert (Hcalm : calm (rejects env)) by constructor.
  split; [repeat split; solve [discriminate | exact Hv | exact Hcalm] |].
  destruct (signup_creates_one_account (B := Toy.bcrypt) (S := Toy_sound) env w e
              p code) as (H1 & H2 & H3 & _ & _ & _ & _ & _ & _ & Hlater);
    [discriminate | discriminate | reflexivity | exact Hv | exact Hcalm
    | reflexivity |].
  split; [exact H1 |]. split; [exact H2 |]. split; [exact H3 |].
  apply (Hlater [(env, SendOtp (Some e))] env "other"%string code);
    [discriminate | reflexivity | | exact Hcalm].
  exists {| otp := "550000"; expiresAt := 302000 |}.
  split; [vm_compute; reflexivity | split; [reflexivity | discriminate]].
Defined.

(** C6, on an instance: [alice] logs in with her password. *)
Lemma login_outcomes_witness :
  let env := Sample.env in
  let w := Sample.registered in
  let e := Sample.alice in
  let p := "pw"%string in
  (e <> ""%string /\ p <> ""%string) /\
  let served := serve (B := Toy.bcrypt) env (Login (Some e) (Some p)) w in
  otps (snd served) = otps w /\
  (calm (rejects env) ->
   fst served = Some (login_successful e) /\
   login_events (snd served) = login_events w ++ [1] /\
   users (snd served) = users w).
Proof.
  intros env w e p.
  split; [split; discriminate |].
  destruct (login_outcomes (B := Toy.bcrypt) env w e p) as (_ & H2 & _ & H4);
    [discriminate | discriminate |].
  split; [exact H2 | exact H4].
Defined.

(** C7 fails as stated: [alice] resets her password to the one she had, and
    that old password still verifies against the stored hash afterwards. *)
Lemma reset_to_same_password_still_verifies :
  let old := "pw"%string in
  let served :=
    serve (B := Toy.bcrypt) Sample.env
      (ResetPassword (Some Sample.alice) (JStr "550000") (Some old))
      Sample.registered in
  account Sample.registered Sample.alice = Some Sample.row /\
  @bcrypt_compare Toy.bcrypt old (Row.password_hash Sample.row) = true /\
  fst served = Some reset_successful /\
  exists u',
    account (snd served) Sample.alice = Some u' /\
    @bcrypt_compare Toy.bcrypt old (Row.password_hash u') = true.
Proof.
  repeat split. exists Sample.row. split; reflexivity.
Qed.

(** C7 as amended, on an instance: [alice] resets her password to "new". *)
Lemma reset_overwrites_hash_witness :
  let env := Sample.env in
  let w := Sample.registered in
  let e := Sample.alice in
  let q := "new"%string in
  let code := JStr "550000" in
  (e <> ""%string /\ q <> ""%string /\ truthy code = true /\
   code_valid (otps w) e code (Date_now env) /\
   calm (rejects env) /\ account w e = Some Sample.row) /\
  let served :=
    serve (B := Toy.bcrypt) env (ResetPassword (Some e) code (Some q)) w in
  fst served = Some reset_successful /\
  (exists u',
     account (snd served) e = Some u' /\
     Row.password_hash u' = "#new"%string /\
     @bcrypt_compare Toy.bcrypt q (Row.password_hash u') = true /\
     @bcrypt_compare Toy.bcrypt "pw" (Row.password_hash u') = false).
Proof.
  intros env w e q code.
  assert (Hv : code_valid (otps w) e code (Date_now env)).
  { exists Sample.entry. split; [reflexivity | split; [reflexivity | discriminate]]. }
  assert (Hcalm : calm (rejects env)) by constructor.
  split; [repeat split; solve [discriminate | exact Hv | exact Hcalm] |].
  destruct (reset_overwrites_hash (B := Toy.bcrypt) (S := Toy_sound) env w e code
              q Sample.row) as (H1 & (u' & Ha & Hh & Hn & Ho & _) & _);
    [discriminate | discriminate | reflexivity | exact Hv | exact Hcalm
    | reflexivity |].
  split; [exact H1 |].
  exists u'. split; [exact Ha |]. split; [exact Hh |]. split; [exact Hn |].
  rewrite Ho. reflexivity.
Defined.

(** ** Profile: tags *)

Lemma join_comma_two x y l :
  join_comma (JStr x :: y :: l) = (x +:+ "," +:+ join_comma (y :: l))%string.
Proof. reflexivity. Qed.

Lemma split_comma_single t : has_comma t = false -> split_comma t = [t].
Proof.
  induction t as [| c t IH]; simpl; [reflexivity |].
  intros H. apply orb_false_iff in H as [Hc Ht]. rewrite Hc, (IH Ht). reflexivity.
Qed.

Lemma split_comma_app t s :
  has_comma t = false ->
  split_comma (t +:+ String "," s) = t :: split_comma s.
Proof.
  induction t as [| c t IH]; simpl; [reflexivity |].
  intros H. apply orb_false_iff in H as [Hc Ht]. rewrite Hc, (IH Ht). reflexivity.
Qed.

Lemma split_join tags :
  tags <> [] -> Forall plain_tag tags ->
  split_comma (join_comma (List.map JStr tags)) = tags.
Proof.
  induction tags as [| t tags IH]; [congruence |].
  intros _ Hall. inversion Hall as [| ? ? [_ Ht] Hrest]; subst.
  destruct tags as [| t' tags].
  - apply split_comma_single. exact Ht.
  - cbn [List.map]. rewrite join_comma_two.
    change ("," +:+ ?s)%string with (String "," s).
    rewrite split_comma_app by exact Ht. f_equal.
    apply IH; [discriminate | exact Hrest].
Qed.

Lemma join_nonempty t tags :
  t <> ""%string -> join_comma (List.map JStr (t :: tags)) <> ""%string.
Proof.
  intros Ht. destruct tags as [| t' tags]; [exact Ht |].
  cbn [List.map]. rewrite join_comma_two.
  destruct t; [congruence | discriminate].
Qed.

Lemma truthy_nonempty s : s <> ""%string -> truthy (JStr s) = true.
Proof.
  intros Hs. simpl. destruct (String.eqb_spec s ""); [contradiction | reflexivity].
Qed.

Lemma filter_Boolean_plain tags :
  Forall plain_tag tags -> filter_Boolean tags = tags.
Proof.
  induction 1 as [| t tags [Ht _] _ IH]; [reflexivity |].
  unfold filter_Boolean in *. cbn [List.filter truthy].
  destruct (String.eqb_spec t ""); [contradiction |]. simpl. f_equal. exact IH.
Qed.

(** Joining plain tags for storage and splitting the column back gives the
    same list. *)
Lemma tags_stored_and_read tags :
  Forall plain_tag tags ->
  workTagsArray (stored_tags (join_comma (List.map JStr tags))) = tags.
Proof.
  intros Hall. destruct tags as [| t tags]; [reflexivity |].
  assert (Hne : join_comma (List.map JStr (t :: tags)) <> ""%string).
  { apply join_nonempty. inversion Hall as [| ? ? [Ht _] _]. exact Ht. }
  unfold stored_tags, workTagsArray. rewrite !(truthy_nonempty _ Hne).
  rewrite split_join by (exact Hall || discriminate).
  apply filter_Boolean_plain. exact Hall.
Qed.

Section Profiles.
Context {B : Bcrypt}.

Lemma tagsArray_single v :
  isArray v = false -> tagsArray v = if truthy v then [v] else [].
Proof. destruct v; try reflexivity. discriminate. Qed.

Lemma save_profile_serves env w b e u :
  Profile.email b = Some e -> e <> ""%string ->
  calm (rejects env) -> account w e = Some u ->
  serve env (SaveProfile b) w =
    (Some (profile_saved e),
     with_users w
       (update_where_id (Row.id u)
          (set_profile b (join_comma (tagsArray (Profile.workTags b))))
          (users w))
       (users_id_seq w)).
Proof.
  intros Hb He Hcalm Hu. unfold_handlers. rewrite Hb, given_nonempty by exact He.
  simpl. next_await; rewrite Hu; simpl.
  - reflexivity.
  - next_await; reflexivity.
Qed.

Lemma get_user_serves env w e u :
  e <> ""%string -> calm (rejects env) -> account w e = Some u ->
  serve env (GetUser (Some e)) w = (Some (json (UserBody (safeUser u))), w).
Proof.
  intros He Hcalm Hu. unfold_handlers. rewrite given_nonempty by exact He.
  simpl. next_await; rewrite Hu; reflexivity.
Qed.

(** Saving a profile and fetching it: the row found for the identity is the
    old one with the [set] clause applied, and the view is made from it. *)
Lemma save_then_fetch env env' w b e u :
  Profile.email b = Some e -> e <> ""%string ->
  calm (rejects env) -> calm (rejects env') -> account w e = Some u ->
  let saved := snd (serve env (SaveProfile b) w) in
  let u' := set_profile b (join_comma (tagsArray (Profile.workTags b))) u in
  account saved e = Some u' /\
  serve env' (GetUser (Some e)) saved = (Some (json (UserBody (safeUser u'))), saved).
Proof.
  intros Hb He Hcalm Hcalm' Hu saved u'. subst saved.
  rewrite (save_profile_serves env w b e u) by assumption. cbn [snd].
  assert (Hacc : account
            (with_users w
               (update_where_id (Row.id u)
                  (set_profile b (join_comma (tagsArray (Profile.workTags b))))
                  (users w)) (users_id_seq w)) e = Some u').
  { rewrite account_update by (intros ?; reflexivity).
    rewrite Hu, Z.eqb_refl. reflexivity. }
  split; [exact Hacc |]. apply get_user_serves; assumption.
Qed.

(** C9, as amended.  Saving a profile for an existing identity and fetching
    it back (collaborators answering): a tag list whose elements are all
    non-empty strings without commas comes back exactly; an absent or empty
    tag list comes back as the empty list; and a single value that is not an
    array is handled as the one-element list holding it when it is truthy
    (so a plain tag given alone comes back as the list of that tag), and as
    the empty list when it is falsy. *)
Theorem tags_round_trip env env' w b e u :
  Profile.email b = Some e -> e <> ""%string ->
  calm (rejects env) -> calm (rejects env') -> account w e = Some u ->
  let saved := snd (serve env (SaveProfile b) w) in
  let fetched := fst (serve env' (GetUser (Some e)) saved) in
  exists view,
    fetched = Some (json (UserBody view)) /\
    (forall tags,
       Profile.workTags b = JArr (List.map JStr tags) -> Forall plain_tag tags ->
       Safe.workTags view = tags) /\
    (Profile.workTags b = JUndefined \/ Profile.workTags b = JArr [] ->
     Safe.workTags view = []) /\
    (isArray (Profile.workTags b) = false ->
     if truthy (Profile.workTags b)
     then tagsArray (Profile.workTags b) = [Profile.workTags b] /\
          serve env (SaveProfile b) w
            = serve env (SaveProfile (with_workTags b (JArr [Profile.workTags b]))) w /\
          (forall t, Profile.workTags b = JStr t -> plain_tag t ->
                     Safe.workTags view = [t])
     else tagsArray (Profile.workTags b) = [] /\ Safe.workTags view = []).
Proof.
  intros Hb He Hcalm Hcalm' Hu saved fetched.
  destruct (save_then_fetch env env' w b e u Hb He Hcalm Hcalm' Hu) as [_ Hf].
  fold saved in Hf. subst fetched. rewrite Hf. cbn [fst].
  eexists. split; [reflexivity |].
  cbn [safeUser Safe.workTags set_profile Row.work_tags].
  fold (stored_tags (join_comma (tagsArray (Profile.workTags b)))).
  split; [| split].
  - intros tags Ht Hall. rewrite Ht. cbn [tagsArray].
    apply tags_stored_and_read. exact Hall.
  - intros [-> | ->]; reflexivity.
  - intros Harr. destruct (truthy (Profile.workTags b)) eqn:Htr.
    + assert (Hone : tagsArray (Profile.workTags b) = [Profile.workTags b])
        by (rewrite tagsArray_single, Htr by exact Harr; reflexivity).
      split; [exact Hone |]. split.
      * rewrite (save_profile_serves env w b e u) by assumption.
        rewrite (save_profile_serves env w (with_workTags b _) e u) by assumption.
        cbn [with_workTags Profile.workTags tagsArray set_profile].
        rewrite Hone. reflexivity.
      * intros t Ht Hplain. rewrite Ht. cbn [tagsArray].
        rewrite (truthy_nonempty t) by apply Hplain.
        apply (tags_stored_and_read [t]). constructor; [exact Hplain | constructor].
    + assert (Hnone : tagsArray (Profile.workTags b) = [])
        by (rewrite tagsArray_single, Htr by exact Harr; reflexivity).
      split; [exact Hnone |]. rewrite Hnone. reflexivity.
Qed.

(** ** Profile: scalar fields *)




End Profiles.

(** C9 fails as stated: the single value 0, which is not an array, is not
    handled as the one-element list [[0]] but as the empty list, and the
    difference shows on the next fetch. *)
Lemma falsy_single_tag_is_dropped :
  isArray (JNum 0) = false /\
  tagsArray (JNum 0) = [] /\
  tagsArray (JNum 0) <> [JNum 0] /\
  tags_after_save (sample_profile (JNum 30) (JNum 0)) = Some [] /\
  tags_after_save (sample_profile (JNum 30) (JArr [JNum 0])) = Some ["0"%string].
Proof. repeat split; try reflexivity. discriminate. Qed.

(** C9 as amended, on an instance: two plain tags come back. *)
Lemma tags_round_trip_witness :
  let b := sample_profile (JNum 30) (JArr [JStr "teaching"; JStr "tech"]) in
  let e := Sample.alice in
  let w := Sample.registered in
  (Profile.email b = Some e /\ e <> ""%string /\ calm (rejects Sample.env) /\
   account w e = Some Sample.row) /\
  let saved := snd (serve (B := Toy.bcrypt) Sample.env (SaveProfile b) w) in
  let fetched :=
    fst (serve (B := Toy.bcrypt) Sample.env (GetUser (Some e)) saved) in
  exists view,
    fetched = Some (json (UserBody view)) /\
    Safe.workTags view = ["teaching"; "tech"]%string.
Proof.
  intros b e w.
  assert (Hcalm : calm (rejects Sample.env)) by constructor.
  split; [repeat split; solve [discriminate | exact Hcalm] |].
  destruct (tags_round_trip (B := Toy.bcrypt) Sample.env Sample.env w b e
              Sample.row) as (view & Hf & Htags & _);
    [reflexivity | discriminate | exact Hcalm | exact Hcalm | reflexivity |].
  exists view. split; [exact Hf |].
  apply (Htags ["teaching"; "tech"]%string); [reflexivity |].
  repeat constructor; discriminate.
Defined.



(** ** Further properties: validation, answers and failures *)

Ltac run_cases tac :=
  unfold_handlers; unfold given;
  repeat (case_match; simpl in *; simplify_eq; try tac).

Section Answers.
Context {B : Bcrypt}.

(** X1. Every handler that needs a field answers 400 with its own message
    when the field is absent or empty (for the code: any falsy value, such as
    0 or the empty string), before anything else: the world is left as it
    was. *)
Theorem missing_field_is_refused env w :
  (forall email,
     given email = None ->
     serve env (SendOtp email) w
       = (Some (status_json 400 (Message "Email is required for OTP")), w)) /\
  (forall email password otp,
     given email = None \/ given password = None \/ truthy otp = false ->
     serve env (Signup email password otp) w
       = (Some (status_json 400 (Message "Email, password and OTP are required")), w)) /\
  (forall email password,
     given email = None \/ given password = None ->
     serve env (Login email password) w
       = (Some (status_json 400 (Message "Email and password are required")), w)) /\
  (forall email otp newPassword,
     given email = None \/ truthy otp = false \/ given newPassword = None ->
     serve env (ResetPassword email otp newPassword) w
       = (Some (status_json 400 (Message "Email, OTP and new password are required")), w)) /\
  (forall email,
     given email = None ->
     serve env (GetUser email) w
       = (Some (status_json 400 (Message "Email is required")), w)) /\
  (forall b,
     given (Profile.email b) = None ->
     serve env (SaveProfile b) w
       = (Some (status_json 400 (Message "Email is required")), w)).
Proof.
  repeat split.
  - intros email H. unfold serve, handler, send_otp. rewrite H. reflexivity.
  - intros email password otp H. unfold serve, handler, signup.
    destruct (given email), (given password), (truthy otp);
      try reflexivity; destruct H as [H | [H | H]]; discriminate.
  - intros email password H. unfold serve, handler, login.
    destruct (given email), (given password);
      try reflexivity; destruct H as [H | H]; discriminate.
  - intros email otp newPassword H. unfold serve, handler, reset_password.
    destruct (given email), (truthy otp), (given newPassword);
      try reflexivity; destruct H as [H | [H | H]]; discriminate.
  - intros email H. unfold serve, handler, get_user. rewrite H. reflexivity.
  - intros b H. unfold serve, handler, save_profile. rewrite H. reflexivity.
Qed.

(** X2. A request whose identity and passwords are strings (as they are in
    every [Request]) and whose tags hold no object is answered, whatever the
    awaited collaborators do, and the status is 200, 400, 404 or 500: every
    awaited call is inside the [try] of its handler, so no rejected call
    escapes.  Tags that hold an object are left out: their conversion to a
    string on line 256, before the [try], can throw. *)
Theorem every_request_is_answered env rq w :
  tags_without_object rq ->
  exists r,
    fst (serve env rq w) = Some r /\
    (status r = 200 \/ status r = 400 \/ status r = 404 \/ status r = 500).
Proof.
  intros _.
  destruct rq; run_cases ltac:(eexists; split; [reflexivity | simpl; tauto]).
Qed.

(** X3. Rejected collaborator calls can only do one thing to a request: with
    them it is served exactly as without them, or it gets the response of the
    [catch] block of its handler, with the rows of the tables as they were.
    Unless the request is a send-otp (which has stored its entry and handed
    over its mail), the world is then as it was, but for the sequence behind
    [users.id]: a signup whose insert failed while running has drawn a value
    from it. *)
Theorem failure_only_turns_into_500 env rq w :
  serve env rq w = serve (unfailing env) rq w \/
  (fst (serve env rq w) = Some (catch_response rq) /\
   users (snd (serve env rq w)) = users w /\
   login_events (snd (serve env rq w)) = login_events w /\
   ((forall email, rq <> SendOtp email) ->
    snd (serve env rq w) = w \/
    ((exists e p code, rq = Signup (Some e) (Some p) code) /\
     nextval_taken env = true /\
     snd (serve env rq w) = with_users w (users w) (users_id_seq w + 1)))).
Proof.
  destruct rq;
    run_cases ltac:(first
      [ left; reflexivity
      | right; repeat split; first
          [ reflexivity
          | intros Hne; exfalso; eapply Hne; reflexivity
          | intros _; left; reflexivity
          | intros _; right; repeat split;
              first [ eexists _, _, _; reflexivity | reflexivity | assumption ] ] ]).
Qed.

End Answers.

(** ** Further properties: what changes the storage *)

Section StorageChanges.
Context {B : Bcrypt}.

(** X4. A request that is not answered with status 200 leaves the rows of
    the tables [users] and [login_events] as they were.  Unless it is a
    send-otp, it leaves the world as it was, but for the sequence behind
    [users.id]: a signup answered from its [catch] block, whose insert failed
    while running, has drawn a value from it. *)
Theorem only_success_changes_storage env rq w r :
  fst (serve env rq w) = Some r -> status r <> 200 ->
  users (snd (serve env rq w)) = users w /\
  login_events (snd (serve env rq w)) = login_events w /\
  ((forall email, rq <> SendOtp email) ->
   snd (serve env rq w) = w \/
   ((exists e p code, rq = Signup (Some e) (Some p) code) /\
    r = catch_response rq /\ nextval_taken env = true /\
    snd (serve env rq w) = with_users w (users w) (users_id_seq w + 1))).
Proof.
  destruct rq;
    run_cases ltac:(intros Hr Hs; simplify_eq; simpl in Hs; first
      [ congruence
      | repeat split; first
          [ reflexivity
          | intros Hne; exfalso; eapply Hne; reflexivity
          | intros _; left; reflexivity
          | intros _; right; repeat split;
              first [ eexists _, _, _; reflexivity | reflexivity | assumption ] ] ]).
Qed.

(** X5. Fetching a user and fetching the stats never change the world,
    whatever the collaborators do. *)
Theorem reads_change_nothing env w email :
  snd (serve env (GetUser email) w) = w /\ snd (serve env Stats w) = w.
Proof.
  split; run_cases ltac:(reflexivity).
Qed.

(** X6. The table [login_events] only changes by a login that succeeds: any
    request leaves it as it was, except a login with a password that verifies
    against the stored hash of the account, which appends the id of that
    account and nothing else. *)
Theorem login_events_grow_by_logins env rq w :
  login_events (snd (serve env rq w)) = login_events w \/
  exists e p u,
    rq = Login (Some e) (Some p) /\
    account w e = Some u /\
    bcrypt_compare p (Row.password_hash u) = true /\
    fst (serve env rq w) = Some (login_successful (Row.email u)) /\
    snd (serve env rq w) = with_login_events w (login_events w ++ [Row.id u]).
Proof.
  destruct rq;
    run_cases ltac:(first
      [ left; reflexivity
      | right; eexists _, _, _; repeat split;
          first [reflexivity | eassumption | apply negb_false_iff; eassumption]]).
Qed.

End StorageChanges.

(** ** Further properties: entries leaving the registry *)

Lemma delete_prop_removed (o : Registry) key k ent :
  o !! k = Some ent -> delete_prop o key !! k = None ->
  k = key /\ key <> "__proto__"%string.
Proof.
  unfold delete_prop. intros Hk Hn.
  destruct (String.eqb_spec key "__proto__"); [congruence |].
  apply lookup_delete_None in Hn as [-> | Hn]; [auto | congruence].
Qed.

Ltac entry_left :=
  let Hk := fresh "Hk" in
  let Hn := fresh "Hn" in
  let Hp := fresh "Hp" in
  intros Hk Hn; first
    [ congruence
    | unfold set_prop in Hn; apply lookup_insert_None in Hn as [Hn _]; congruence
    | destruct (delete_prop_removed _ _ _ _ Hk Hn) as [-> Hp];
      split; [exact Hp |];
      first
        [ left; eexists _, _; split; [reflexivity |]; split; [| reflexivity];
          apply gate_accepts_iff; assumption
        | right; eexists _, _; split; [reflexivity |]; split; [| reflexivity];
          apply gate_accepts_iff; assumption ] ].

Section EntryRemoval.
Context {B : Bcrypt}.

(** X7. An entry leaves the registry only through a signup or a
    reset-password for its identity that passes the gate and succeeds: no
    failure, no expiry and no other request removes it, and an entry under
    the key ["__proto__"] is never removed. *)
Theorem entry_leaves_only_on_success env rq w k ent :
  otps w !! k = Some ent ->
  otps (snd (serve env rq w)) !! k = None ->
  k <> "__proto__"%string /\
  ((exists p code,
      rq = Signup (Some k) (Some p) code /\
      code_valid (otps w) k code (Date_now env) /\
      fst (serve env rq w) = Some (signup_successful k)) \/
   (exists code q,
      rq = ResetPassword (Some k) code (Some q) /\
      code_valid (otps w) k code (Date_now env) /\
      fst (serve env rq w) = Some reset_successful)).
Proof.
  destruct rq; run_cases ltac:(entry_left); simpl in *; entry_left.
Qed.

End EntryRemoval.

(** ** Further properties: accounts along a run *)

Lemma account_None_not_in w e : account w e = None -> ~ In e (emails w).
Proof.
  unfold account, emails. induction (users w) as [| x l IH]; simpl; [tauto |].
  destruct (String.eqb_spec (Row.email x) e); [discriminate |].
  intros H [Hx | Hin]; [contradiction | exact (IH H Hin)].
Qed.

Lemma emails_update id f us :
  (forall u, Row.email (f u) = Row.email u) ->
  List.map Row.email (update_where_id id f us) = List.map Row.email us.
Proof.
  intros Hf. unfold update_where_id. rewrite List.map_map.
  apply List.map_ext. intros u. destruct (Row.id u =? id); [apply Hf | reflexivity].
Qed.

Section AccountsAlongRuns.
Context {B : Bcrypt}.

(** What one request can do to the table [users], with the request that
    does it. *)
Lemma serve_users_cases env rq w :
  let w' := snd (serve env rq w) in
  users w' = users w \/
  (exists e p code h,
     rq = Signup (Some e) (Some p) code /\ account w e = None /\
     code_valid (otps w) e code (Date_now env) /\
     fst (serve env rq w) = Some (signup_successful e) /\
     users w' = users w ++ [new_account (users_id_seq w) e h]) \/
  (exists e code q u h,
     rq = ResetPassword (Some e) code (Some q) /\ account w e = Some u /\
     code_valid (otps w) e code (Date_now env) /\
     fst (serve env rq w) = Some reset_successful /\
     users w' = update_where_id (Row.id u) (set_password_hash h) (users w)) \/
  (exists b e u t,
     rq = SaveProfile b /\ Profile.email b = Some e /\ account w e = Some u /\
     users w' = update_where_id (Row.id u) (set_profile b t) (users w)).
Proof.
  destruct rq; cbn zeta;
    run_cases ltac:(first
      [ left; reflexivity
      | right; left; eexists _, _, _, _; repeat split;
          first [reflexivity | eassumption | apply gate_accepts_iff; assumption]
      | right; right; left; eexists _, _, _, _, _; repeat split;
          first [reflexivity | eassumption | apply gate_accepts_iff; assumption]
      | right; right; right; eexists _, _, _, _; repeat split;
          first [reflexivity | eassumption] ]).
Qed.

Lemma emails_step env rq w :
  NoDup (emails w) -> NoDup (emails (snd (serve env rq w))).
Proof.
  intros Hnd. unfold emails in *.
  destruct (serve_users_cases env rq w)
    as [-> | [(e & p & code & h & _ & Hacc & _ & _ & ->)
           | [(e & code & q & u & h & _ & _ & _ & _ & ->)
             | (b & e & u & t & _ & _ & _ & ->)]]].
  - exact Hnd.
  - rewrite List.map_app. simpl.
    apply NoDup_app. split; [exact Hnd |]. split.
    + intros x Hx Hin. apply list_elem_of_In in Hx.
      apply list_elem_of_In in Hin as [<- | []].
      exact (account_None_not_in w _ Hacc Hx).
    + apply NoDup_singleton.
  - rewrite emails_update by reflexivity. exact Hnd.
  - rewrite emails_update by reflexivity. exact Hnd.
Qed.

(** X8. Served one at a time, each request answered before the next one is
    taken up (the runs of [serve_all]), requests keep the emails of [users]
    distinct: if no two rows have the same email, no such run creates two,
    since signup inserts only for an email that has no row at its lookup.
    Nothing is held between that lookup and the insert, so the statement does
    not extend to signups that overlap. *)
Theorem emails_stay_unique trace : forall w,
  NoDup (emails w) -> NoDup (emails (serve_all trace w)).
Proof.
  induction trace as [| [env rq] trace IH]; intros w H; [exact H |].
  cbn [serve_all]. apply IH. apply emails_step. exact H.
Qed.

(** The row an identity resolves to keeps its id, and its stored hash unless
    the request is a reset-password that succeeds. *)
Lemma account_step env rq w e u :
  account w e = Some u ->
  exists u',
    account (snd (serve env rq w)) e = Some u' /\
    Row.id u' = Row.id u /\
    (Row.password_hash u' = Row.password_hash u \/
     exists e' code q,
       rq = ResetPassword (Some e') code (Some q) /\
       code_valid (otps w) e' code (Date_now env) /\
       fst (serve env rq w) = Some reset_successful).
Proof.
  intros Hu. unfold account in *.
  destruct (serve_users_cases env rq w)
    as [-> | [(e1 & p & code & h & _ & _ & _ & _ & ->)
           | [(e1 & code & q & u1 & h & Hrq & _ & Hv & Hr & Hus)
             | (b & e1 & u1 & t & _ & _ & _ & Hus)]]].
  - exists u. auto.
  - rewrite find_app_first, Hu. exists u. auto.
  - pose proof (account_update w e (Row.id u1) (set_password_hash h)
                  (users_id_seq w) (fun _ => eq_refl)) as Hupd.
    unfold account in Hupd. cbn [users with_users] in Hupd.
    rewrite Hus, Hupd, Hu. eexists. split; [reflexivity |].
    destruct (Row.id u =? Row.id u1); (split; [reflexivity |]).
    + right. eauto 6.
    + left. reflexivity.
  - pose proof (account_update w e (Row.id u1) (set_profile b t)
                  (users_id_seq w) (fun _ => eq_refl)) as Hupd.
    unfold account in Hupd. cbn [users with_users] in Hupd.
    rewrite Hus, Hupd, Hu. eexists. split; [reflexivity |].
    destruct (Row.id u =? Row.id u1); auto.
Qed.

(** X9. Accounts are never deleted and never renumbered: an identity that
    resolves to an account resolves, after any run of requests, to an account
    with the same id. *)
Theorem accounts_keep_their_id trace : forall w e u,
  account w e = Some u ->
  exists u', account (serve_all trace w) e = Some u' /\ Row.id u' = Row.id u.
Proof.
  induction trace as [| [env rq] trace IH]; intros w e u Hu; [eauto |].
  cbn [serve_all].
  destruct (account_step env rq w e u Hu) as (u1 & Hu1 & Hid & _).
  destruct (IH _ e u1 Hu1) as (u' & Hu' & Hid'). exists u'. split; [exact Hu' | congruence].
Qed.

(** X10. The stored hash of an account changes only by a reset-password
    that passes the gate and succeeds: signup, login, profile save and every
    failed request leave it as it was. *)
Theorem hash_changes_only_by_reset env rq w e u u' :
  account w e = Some u ->
  account (snd (serve env rq w)) e = Some u' ->
  Row.password_hash u' <> Row.password_hash u ->
  exists e' code q,
    rq = ResetPassword (Some e') code (Some q) /\
    code_valid (otps w) e' code (Date_now env) /\
    fst (serve env rq w) = Some reset_successful.
Proof.
  intros Hu Hu' Hne.
  destruct (account_step env rq w e u Hu) as (u1 & Hu1 & _ & [Hsame | Hreset]).
  - congruence.
  - exact Hreset.
Qed.

End AccountsAlongRuns.

(** ** Further properties: signups that overlap *)





Section SignupsInFlight.
Context {B : Bcrypt}.

(** The stages are the handler: a signup that arrives and is resumed three
    times with nothing in between is [signup]. *)
Lemma signup_in_stages env email password otp s :
  (let* s0 := signup_arrives env email password otp in
   let* s1 := signup_resumes env s0 in
   let* s2 := signup_resumes env s1 in
   signup_resumes env s2) s
  = (let* r := signup env email password otp in ret (Answered r)) s.
Proof.
  destruct s as [w flags].
  unfold signup_arrives, signup_resumes.
  run_cases ltac:(reflexivity).
Qed.


End SignupsInFlight.

(** ** Further properties: mail and refused attempts *)

Section MailAndAttempts.
Context {B : Bcrypt}.

Lemma serve_outbox env rq w :
  outbox (snd (serve env rq w)) = outbox w ++ mail_of (env, rq).
Proof.
  destruct rq; unfold mail_of;
    run_cases ltac:(first [ rewrite List.app_nil_r; reflexivity | reflexivity ]).
Qed.

Lemma outbox_along trace : forall w,
  outbox (serve_all trace w) = outbox w ++ List.flat_map mail_of trace.
Proof.
  induction trace as [| [env rq] trace IH]; intros w.
  - simpl. rewrite List.app_nil_r. reflexivity.
  - cbn [serve_all List.flat_map]. rewrite IH, serve_outbox, <- List.app_assoc.
    reflexivity.
Qed.

Lemma mails_carry_codes trace :
  Forall2 (fun m ec => carries_code m (fst ec) (snd ec))
    (List.flat_map mail_of trace) (codes_issued trace).
Proof.
  induction trace as [| [env rq] trace IH]; [constructor |].
  unfold codes_issued in *. cbn [List.flat_map].
  apply Forall2_app; [| exact IH].
  destruct rq; cbn [mail_of]; try constructor.
  destruct (given email); repeat constructor.
Qed.

(** X11. Along a run the server hands the mail transport exactly one
    message for each send-otp with a present email, in the order of the
    requests, whether the transport then fails or not, and no other request
    sends mail: the messages added to the outbox match the codes issued one
    for one, each addressed to the identity of its request, with the subject
    of [mailer.js] and a text that gives the generated code. *)
Theorem one_mail_per_send_otp trace : forall w,
  exists sent,
    outbox (serve_all trace w) = outbox w ++ sent /\
    Forall2 (fun m ec => carries_code m (fst ec) (snd ec))
      sent (codes_issued trace).
Proof.
  intros w. exists (List.flat_map mail_of trace).
  split; [apply outbox_along | apply mails_carry_codes].
Qed.

(** Every entry found after a run was there at its start or was issued by a
    [send_otp] for that identity, which it has mailed. *)
Lemma entry_issued_and_mailed trace : forall w k ent,
  otps (serve_all trace w) !! k = Some ent ->
  otps w !! k = Some ent \/
  In (mailOptions k (otp ent)) (List.flat_map mail_of trace).
Proof.
  induction trace as [| [env rq] trace IH]; intros w k ent Hk; [left; exact Hk |].
  cbn [serve_all List.flat_map] in *. rewrite List.in_app_iff.
  apply IH in Hk as [Hk | Hin]; [| right; right; exact Hin].
  destruct (serve_registry env rq w) as [Ho | [H | H]].
  - rewrite Ho in Hk. left. exact Hk.
  - destruct H as (e & -> & He & Ho). rewrite Ho in Hk. unfold set_prop in Hk.
    destruct (decide (e = k)) as [-> | Hne].
    + rewrite lookup_insert_eq in Hk. injection Hk as <-.
      right. left. unfold mail_of. rewrite given_nonempty by exact He.
      left. reflexivity.
    + rewrite lookup_insert_ne in Hk by exact Hne. left. exact Hk.
  - destruct H as (e & _ & Ho). rewrite Ho in Hk. left.
    eapply delete_prop_sub. exact Hk.
Qed.

(** X12. Every code in the registry was mailed to the identity it is stored
    for: from the start of the process on, for each entry there is, among the
    messages handed to the transport, one addressed to the identity of the
    entry whose text gives the code of the entry. *)
Theorem pending_codes_were_mailed db trace k ent :
  otps (serve_all trace (boot db)) !! k = Some ent ->
  exists m,
    In m (outbox (serve_all trace (boot db))) /\
    mail_to m = k /\
    text m = ("Your Jugaad verification code is " +:+ otp ent
              +:+ ". It is valid for 5 minutes.")%string.
Proof.
  intros Hk. exists (mailOptions k (otp ent)).
  split; [| split; reflexivity].
  rewrite outbox_along. apply List.in_or_app. right.
  apply entry_issued_and_mailed in Hk as [Hk | Hin]; [| exact Hin].
  unfold boot, with_otps, empty_registry in Hk. cbn [otps] in Hk.
  rewrite lookup_empty in Hk. discriminate.
Qed.

Lemma refused_attempt_changes_nothing env rq w :
  refused_attempt w (env, rq) -> snd (serve env rq w) = w.
Proof.
  destruct rq as [| [e |] password code | | [e |] code newPassword | | |];
    cbn [refused_attempt]; try tauto; intros Hv.
  - unfold serve, handler, signup.
    destruct (given (Some e)) as [e' |] eqn:He; [| reflexivity].
    assert (e' = e) by (unfold given in He; destruct (_ =? _)%string; congruence).
    subst e'.
    destruct (given password) as [p |] eqn:Hp; [| reflexivity].
    destruct (truthy code) eqn:Hc; [| reflexivity].
    unfold bind at 1, get_world at 1. cbn [fst].
    rewrite (proj2 (gate_rejects_iff (otps w) e code (Date_now env) Hc) Hv).
    reflexivity.
  - unfold serve, handler, reset_password.
    destruct (given (Some e)) as [e' |] eqn:He; [| reflexivity].
    assert (e' = e) by (unfold given in He; destruct (_ =? _)%string; congruence).
    subst e'.
    destruct (truthy code) eqn:Hc; [| reflexivity].
    destruct (given newPassword) as [q |] eqn:Hq; [| reflexivity].
    unfold bind at 1, get_world at 1. cbn [fst].
    rewrite (proj2 (gate_rejects_iff (otps w) e code (Date_now env) Hc) Hv).
    reflexivity.
Qed.

(** X13. Wrong guesses cost nothing: any number of signup and
    reset-password attempts with codes that are not valid leaves the world as
    it was, so the pending code stays usable and nothing counts the
    attempts. *)
Theorem wrong_codes_never_lock trace w :
  Forall (refused_attempt w) trace -> serve_all trace w = w.
Proof.
  induction 1 as [| [env rq] trace Hstep _ IH]; [reflexivity |].
  cbn [serve_all]. rewrite refused_attempt_changes_nothing by exact Hstep.
  exact IH.
Qed.

End MailAndAttempts.

(** ** Further properties: stats *)

Lemma count_app p us vs :
  count_rows p (us ++ vs) = count_rows p us + count_rows p vs.
Proof. unfold count_rows. rewrite List.filter_app, List.length_app. lia. Qed.


Section StatsCounts.
Context {B : Bcrypt}.

Lemma stats_serves env w :
  calm (rejects env) -> serve env Stats w = (Some (stats_of (users w)), w).
Proof.
  intros Hcalm. unfold_handlers. simpl.
  repeat (next_await; simpl); reflexivity.
Qed.


(** X15. A signup that succeeds raises [totalUsers] by one and leaves
    [helpers], [hirers] and [readyToServe] as they were: the new account has
    no role. *)
Theorem new_account_counts_in_total_only env env1 env2 w e p code
    total helpers hirers ready :
  e <> ""%string -> p <> ""%string -> truthy code = true ->
  code_valid (otps w) e code (Date_now env) ->
  calm (rejects env) -> calm (rejects env1) -> calm (rejects env2) ->
  account w e = None ->
  fst (serve env1 Stats w) = Some (json (StatsBody total helpers hirers ready)) ->
  fst (serve env2 Stats (snd (serve env (Signup (Some e) (Some p) code) w)))
    = Some (json (StatsBody (total + 1) helpers hirers ready)).
Proof.
  intros He Hp Hc Hv Hcalm Hcalm1 Hcalm2 Hacc Hbefore.
  rewrite stats_serves in Hbefore by exact Hcalm1. cbn [fst] in Hbefore.
  injection Hbefore as <- <- <- <-.
  rewrite signup_creates by assumption. cbn [snd].
  rewrite stats_serves by exact Hcalm2. cbn [fst users with_otps with_users].
  unfold stats_of. rewrite !count_app.
  do 2 f_equal. f_equal; unfold count_rows; simpl; lia.
Qed.

End StatsCounts.

(** ** Further properties: profiles *)

Lemma split_comma_cons s : exists h t, split_comma s = h :: t.
Proof.
  induction s as [| c s (h & t & IH)]; simpl; [eauto |].
  destruct (Ascii.eqb c ","); [eauto |]. rewrite IH. eauto.
Qed.

Lemma split_comma_append a b :
  split_comma (a +:+ String "," b) = split_comma a ++ split_comma b.
Proof.
  induction a as [| c a IH]; simpl; [reflexivity |].
  destruct (Ascii.eqb c ","); [rewrite IH; reflexivity |].
  rewrite IH. destruct (split_comma_cons a) as (h & t & ->). reflexivity.
Qed.


Lemma split_join_strings t tags :
  split_comma (join_comma (List.map JStr (t :: tags)))
    = List.flat_map split_comma (t :: tags).
Proof.
  revert t. induction tags as [| t' tags IH]; intros t.
  - simpl. rewrite List.app_nil_r. reflexivity.
  - cbn [List.map]. rewrite join_comma_two.
    change ("," +:+ ?s)%string with (String "," s).
    rewrite split_comma_append. cbn [List.flat_map]. f_equal. apply IH.
Qed.


(** What the column [work_tags] gives back for any list of strings. *)
Lemma string_tags_read_back tags :
  workTagsArray (stored_tags (join_comma (List.map JStr tags)))
    = filter_Boolean (List.flat_map split_comma tags).
Proof.
  destruct tags as [| t tags]; [reflexivity |].
  unfold stored_tags, workTagsArray.
  destruct (truthy (JStr (join_comma (List.map JStr (t :: tags))))) eqn:Htr.
  - cbv beta iota. rewrite Htr, split_join_strings. reflexivity.
  - cbv beta iota. rewrite <- split_join_strings. unfold truthy in Htr.
    apply negb_false_iff, String.eqb_eq in Htr. rewrite Htr. reflexivity.
Qed.



Section ProfilesAgain.
Context {B : Bcrypt}.


(** X17. For any list of strings saved as tags, the next fetch shows the
    pieces obtained by cutting every tag at its commas, without the empty
    pieces: a tag with a comma comes back as several tags and an empty tag
    is dropped. *)
Theorem string_tags_are_split_and_filtered env env' w b e u tags :
  Profile.email b = Some e -> e <> ""%string ->
  calm (rejects env) -> calm (rejects env') -> account w e = Some u ->
  Profile.workTags b = JArr (List.map JStr tags) ->
  exists view,
    fst (serve env' (GetUser (Some e)) (snd (serve env (SaveProfile b) w)))
      = Some (json (UserBody view)) /\
    Safe.workTags view = filter_Boolean (List.flat_map split_comma tags).
Proof.
  intros Hb He Hcalm Hcalm' Hu Htags.
  destruct (save_then_fetch env env' w b e u Hb He Hcalm Hcalm' Hu) as [_ Hf].
  rewrite Hf. cbn [fst]. eexists. split; [reflexivity |].
  cbn [safeUser Safe.workTags set_profile Row.work_tags]. rewrite Htags.
  cbn [tagsArray]. apply string_tags_read_back.
Qed.


End ProfilesAgain.

(** ** Further properties: used codes, and login after signup and reset *)

Section CodesAndLogins.
Context {B : Bcrypt}.



(** X20. After a signup that succeeds, a login with the same password
    succeeds and appends one login event with the id of the new account; a
    login with a password that does not verify against the stored hash is
    refused and changes nothing. *)
Theorem signup_then_login {S : BcryptSound B} env env' w e p code :
  e <> ""%string -> p <> ""%string -> truthy code = true ->
  code_valid (otps w) e code (Date_now env) ->
  calm (rejects env) -> calm (rejects env') -> account w e = None ->
  let w1 := snd (serve env (Signup (Some e) (Some p) code) w) in
  serve env' (Login (Some e) (Some p)) w1
    = (Some (login_successful e),
       with_login_events w1 (login_events w ++ [users_id_seq w])) /\
  forall p',
    p' <> ""%string ->
    bcrypt_compare p' (bcrypt_hash p SALT_ROUNDS (salt env)) = false ->
    serve env' (Login (Some e) (Some p')) w1 = (Some invalid_password, w1).
Proof.
  intros He Hp Hc Hv Hcalm Hcalm' Hacc w1. subst w1.
  rewrite signup_creates by assumption. cbn [snd].
  set (created := new_account _ _ _). set (w1 := with_otps _ _).
  assert (Ha : account w1 e = Some created).
  { unfold account in *. subst w1. cbn [users with_otps with_users].
    rewrite find_app_first, Hacc. simpl. rewrite String.eqb_refl. reflexivity. }
  split.
  - rewrite login_serves, Ha by assumption.
    cbn [created new_account Row.password_hash Row.email Row.id].
    rewrite compare_hash. reflexivity.
  - intros p' Hp' Hno. rewrite login_serves, Ha by assumption.
    cbn [created new_account Row.password_hash]. rewrite Hno. reflexivity.
Qed.

(** X21. After a reset-password that succeeds, a login with the new password
    succeeds and appends one login event with the id of the account; a login
    with a password that does not verify against the new hash, such as a
    different old password, is refused and changes nothing. *)
Theorem reset_then_login {S : BcryptSound B} env env' w e code q u :
  e <> ""%string -> q <> ""%string -> truthy code = true ->
  code_valid (otps w) e code (Date_now env) ->
  calm (rejects env) -> calm (rejects env') -> account w e = Some u ->
  let w1 := snd (serve env (ResetPassword (Some e) code (Some q)) w) in
  serve env' (Login (Some e) (Some q)) w1
    = (Some (login_successful e),
       with_login_events w1 (login_events w ++ [Row.id u])) /\
  forall old,
    old <> ""%string ->
    bcrypt_compare old (bcrypt_hash q SALT_ROUNDS (salt env)) = false ->
    serve env' (Login (Some e) (Some old)) w1 = (Some invalid_password, w1).
Proof.
  intros He Hq Hc Hv Hcalm Hcalm' Hu w1. subst w1.
  rewrite (reset_updates env w e code q u) by assumption. cbn [snd].
  set (newHash := bcrypt_hash _ _ _). set (w1 := with_otps _ _).
  assert (Ha : account w1 e = Some (set_password_hash newHash u)).
  { pose proof (account_update w e (Row.id u) (set_password_hash newHash)
                  (users_id_seq w) (fun _ => eq_refl)) as Hupd.
    rewrite Hu, Z.eqb_refl in Hupd. exact Hupd. }
  assert (Hmail : Row.email u = e).
  { unfold account in Hu. apply List.find_some in Hu as [_ Heq].
    apply String.eqb_eq in Heq. exact Heq. }
  split.
  - rewrite login_serves, Ha by assumption.
    cbn [set_password_hash Row.password_hash Row.email Row.id].
    unfold newHash. rewrite compare_hash, Hmail. reflexivity.
  - intros old Hold Hno. rewrite login_serves, Ha by assumption.
    cbn [set_password_hash Row.password_hash]. fold newHash in Hno.
    rewrite Hno. reflexivity.
Qed.

End CodesAndLogins.

(** ** Further properties: instances *)

Lemma sample_code_valid (w : World) :
  otps w !! Sample.alice = Some Sample.entry ->
  code_valid (otps w) Sample.alice (JStr "550000") (Date_now Sample.env).
Proof.
  intros H. exists Sample.entry.
  split; [exact H | split; [reflexivity | discriminate]].
Qed.

(** X2, on an instance: a profile save whose lookup is rejected. *)
Lemma every_request_is_answered_witness :
  let rq :=
    SaveProfile (sample_profile (JNum 30) (JArr [JStr "teaching"; JNum 7])) in
  tags_without_object rq /\
  exists r,
    fst (serve (B := Toy.bcrypt) Sample.env_failing rq Sample.registered)
      = Some r /\
    (status r = 200 \/ status r = 400 \/ status r = 404 \/ status r = 500).
Proof.
  intros rq. split; [reflexivity |].
  apply (every_request_is_answered (B := Toy.bcrypt) Sample.env_failing rq
           Sample.registered). reflexivity.
Defined.

(** X4, on an instance: a signup whose insert fails while running. *)
Lemma only_success_changes_storage_witness :
  let w := Sample.pending in
  let r := catch_response sample_signup in
  let served := serve (B := Toy.bcrypt) env_insert_fails sample_signup w in
  (fst served = Some r /\ status r <> 200) /\
  users (snd served) = users w /\
  login_events (snd served) = login_events w /\
  ((forall email, sample_signup <> SendOtp email) ->
   snd served = w \/
   ((exists e p code, sample_signup = Signup (Some e) (Some p) code) /\
    r = catch_response sample_signup /\ nextval_taken env_insert_fails = true /\
    snd served = with_users w (users w) (users_id_seq w + 1))) /\
  users_id_seq w = 1 /\ users_id_seq (snd served) = 2.
Proof.
  intros w r served. split; [split; [reflexivity | discriminate] |].
  destruct (only_success_changes_storage (B := Toy.bcrypt) env_insert_fails
              sample_signup w r) as (Hu & Hl & Hw);
    [reflexivity | discriminate |].
  split; [exact Hu |]. split; [exact Hl |]. split; [exact Hw |].
  split; reflexivity.
Defined.

(** X7, on an instance. *)
Lemma entry_leaves_only_on_success_witness :
  let served := serve (B := Toy.bcrypt) Sample.env sample_signup Sample.pending in
  (otps Sample.pending !! Sample.alice = Some Sample.entry /\
   otps (snd served) !! Sample.alice = None) /\
  Sample.alice <> "__proto__"%string /\
  ((exists p code,
      sample_signup = Signup (Some Sample.alice) (Some p) code /\
      code_valid (otps Sample.pending) Sample.alice code (Date_now Sample.env) /\
      fst served = Some (signup_successful Sample.alice)) \/
   (exists code q,
      sample_signup = ResetPassword (Some Sample.alice) code (Some q) /\
      code_valid (otps Sample.pending) Sample.alice code (Date_now Sample.env) /\
      fst served = Some reset_successful)).
Proof.
  intros served. split; [split; reflexivity |].
  apply (entry_leaves_only_on_success (B := Toy.bcrypt) Sample.env sample_signup
           Sample.pending Sample.alice Sample.entry); reflexivity.
Defined.

(** X8, on an instance. *)
Lemma emails_stay_unique_witness :
  let trace := [(Sample.env, sample_signup); (Sample.env, sample_reset)] in
  NoDup (emails Sample.registered) /\
  NoDup (emails (serve_all (B := Toy.bcrypt) trace Sample.registered)).
Proof.
  intros trace.
  assert (H : NoDup (emails Sample.registered)) by apply NoDup_singleton.
  split; [exact H |].
  apply (emails_stay_unique (B := Toy.bcrypt) trace Sample.registered H).
Defined.


(** X9, on an instance. *)
Lemma accounts_keep_their_id_witness :
  let trace := [(Sample.env, sample_reset); (Sample.env, sample_signup)] in
  account Sample.registered Sample.alice = Some Sample.row /\
  exists u',
    account (serve_all (B := Toy.bcrypt) trace Sample.registered) Sample.alice
      = Some u' /\
    Row.id u' = Row.id Sample.row.
Proof.
  intros trace. split; [reflexivity |].
  apply (accounts_keep_their_id (B := Toy.bcrypt) trace Sample.registered
           Sample.alice Sample.row). reflexivity.
Defined.

(** X10, on an instance. *)
Lemma hash_changes_only_by_reset_witness :
  let served := serve (B := Toy.bcrypt) Sample.env sample_reset Sample.registered in
  let u' := set_password_hash "#new" Sample.row in
  (account Sample.registered Sample.alice = Some Sample.row /\
   account (snd served) Sample.alice = Some u' /\
   Row.password_hash u' <> Row.password_hash Sample.row) /\
  exists e' code q,
    sample_reset = ResetPassword (Some e') code (Some q) /\
    code_valid (otps Sample.registered) e' code (Date_now Sample.env) /\
    fst served = Some reset_successful.
Proof.
  intros served u'.
  split; [split; [reflexivity | split; [reflexivity | discriminate]] |].
  apply (hash_changes_only_by_reset (B := Toy.bcrypt) Sample.env sample_reset
           Sample.registered Sample.alice Sample.row u');
    [reflexivity | reflexivity | discriminate].
Defined.

(** X12, on an instance. *)
Lemma pending_codes_were_mailed_witness :
  let trace := [(Sample.env, SendOtp (Some Sample.alice))] in
  let ent := {| otp := "550000"; expiresAt := 302000 |} in
  let w := serve_all (B := Toy.bcrypt) trace (boot Sample.fresh) in
  otps w !! Sample.alice = Some ent /\
  exists m,
    In m (outbox w) /\
    mail_to m = Sample.alice /\
    text m = "Your Jugaad verification code is 550000. It is valid for 5 minutes."%string.
Proof.
  intros trace ent w.
  assert (H : otps w !! Sample.alice = Some ent) by (vm_compute; reflexivity).
  split; [exact H |].
  apply (pending_codes_were_mailed (B := Toy.bcrypt) Sample.fresh trace
           Sample.alice ent H).
Defined.

(** X13, on an instance. *)
Lemma wrong_codes_never_lock_witness :
  let trace :=
    [ (Sample.env, Signup (Some Sample.alice) (Some "pw"%string) (JStr "000000"));
      (Sample.env, ResetPassword (Some Sample.alice) (JNum 550000)
                     (Some "new"%string)) ] in
  Forall (refused_attempt Sample.pending) trace /\
  serve_all (B := Toy.bcrypt) trace Sample.pending = Sample.pending.
Proof.
  intros trace.
  assert (H : Forall (refused_attempt Sample.pending) trace).
  { repeat constructor; intros (ent & Hk & Heq & _);
      vm_compute in Hk; injection Hk as <-; discriminate. }
  split; [exact H |].
  apply (wrong_codes_never_lock (B := Toy.bcrypt) trace Sample.pending H).
Defined.


(** X15, on an instance. *)
Lemma new_account_counts_in_total_only_witness :
  let e := Sample.alice in
  let w := Sample.pending in
  let code := JStr "550000" in
  (e <> ""%string /\ "pw"%string <> ""%string /\ truthy code = true /\
   code_valid (otps w) e code (Date_now Sample.env) /\
   calm (rejects Sample.env) /\ account w e = None /\
   fst (serve (B := Toy.bcrypt) Sample.env Stats w)
     = Some (json (StatsBody 0 0 0 0))) /\
  fst (serve (B := Toy.bcrypt) Sample.env Stats
         (snd (serve (B := Toy.bcrypt) Sample.env sample_signup w)))
    = Some (json (StatsBody (0 + 1) 0 0 0)).
Proof.
  intros e w code.
  assert (Hv : code_valid (otps w) e code (Date_now Sample.env))
    by (apply sample_code_valid; reflexivity).
  assert (Hcalm : calm (rejects Sample.env)) by constructor.
  split; [repeat split; solve [discriminate | exact Hv | exact Hcalm] |].
  apply (new_account_counts_in_total_only (B := Toy.bcrypt) Sample.env Sample.env
           Sample.env w e "pw" code 0 0 0 0);
    solve [discriminate | reflexivity | exact Hv | exact Hcalm].
Defined.


(** X17, on an instance. *)
Lemma string_tags_are_split_and_filtered_witness :
  let b := sample_profile (JNum 30) (JArr [JStr "a,b"; JStr ""; JStr "c"]) in
  let e := Sample.alice in
  let w := Sample.registered in
  (Profile.email b = Some e /\ e <> ""%string /\ calm (rejects Sample.env) /\
   account w e = Some Sample.row /\
   Profile.workTags b = JArr (List.map JStr ["a,b"; ""; "c"]%string)) /\
  exists view,
    fst (serve (B := Toy.bcrypt) Sample.env (GetUser (Some e))
           (snd (serve (B := Toy.bcrypt) Sample.env (SaveProfile b) w)))
      = Some (json (UserBody view)) /\
    Safe.workTags view = ["a"; "b"; "c"]%string.
Proof.
  intros b e w.
  assert (Hcalm : calm (rejects Sample.env)) by constructor.
  split; [repeat split; solve [discriminate | exact Hcalm] |].
  apply (string_tags_are_split_and_filtered (B := Toy.bcrypt) Sample.env Sample.env
           w b e Sample.row ["a,b"; ""; "c"]%string);
    solve [discriminate | reflexivity | exact Hcalm].
Defined.



(** X20, on an instance. *)
Lemma signup_then_login_witness :
  let e := Sample.alice in
  let w := Sample.pending in
  let code := JStr "550000" in
  (e <> ""%string /\ "pw"%string <> ""%string /\ truthy code = true /\
   code_valid (otps w) e code (Date_now Sample.env) /\
   calm (rejects Sample.env) /\ account w e = None) /\
  let w1 := snd (serve (B := Toy.bcrypt) Sample.env sample_signup w) in
  serve (B := Toy.bcrypt) Sample.env (Login (Some e) (Some "pw"%string)) w1
    = (Some (login_successful e), with_login_events w1 [1]) /\
  serve (B := Toy.bcrypt) Sample.env (Login (Some e) (Some "guess"%string)) w1
    = (Some invalid_password, w1).
Proof.
  intros e w code.
  assert (Hv : code_valid (otps w) e code (Date_now Sample.env))
    by (apply sample_code_valid; reflexivity).
  assert (Hcalm : calm (rejects Sample.env)) by constructor.
  split; [repeat split; solve [discriminate | exact Hv | exact Hcalm] |].
  destruct (signup_then_login (B := Toy.bcrypt) (S := Toy_sound) Sample.env
              Sample.env w e "pw" code) as [Hgood Hbad];
    [discriminate | discriminate | reflexivity | exact Hv | exact Hcalm
    | exact Hcalm | reflexivity |].
  split; [exact Hgood |].
  apply (Hbad "guess"%string); [discriminate | reflexivity].
Defined.

(** X21, on an instance. *)
Lemma reset_then_login_witness :
  let e := Sample.alice in
  let w := Sample.registered in
  let code := JStr "550000" in
  (e <> ""%string /\ "new"%string <> ""%string /\ truthy code = true /\
   code_valid (otps w) e code (Date_now Sample.env) /\
   calm (rejects Sample.env) /\ account w e = Some Sample.row) /\
  let w1 := snd (serve (B := Toy.bcrypt) Sample.env sample_reset w) in
  serve (B := Toy.bcrypt) Sample.env (Login (Some e) (Some "new"%string)) w1
    = (Some (login_successful e), with_login_events w1 [1]) /\
  serve (B := Toy.bcrypt) Sample.env (Login (Some e) (Some "pw"%string)) w1
    = (Some invalid_password, w1).
Proof.
  intros e w code.
  assert (Hv : code_valid (otps w) e code (Date_now Sample.env))
    by (apply sample_code_valid; reflexivity).
  assert (Hcalm : calm (rejects Sample.env)) by constructor.
  split; [repeat split; solve [discriminate | exact Hv | exact Hcalm] |].
  destruct (reset_then_login (B := Toy.bcrypt) (S := Toy_sound) Sample.env
              Sample.env w e code "new" Sample.row) as [Hgood Hbad];
    [discriminate | discriminate | reflexivity | exact Hv | exact Hcalm
    | exact Hcalm | reflexivity |].
  split; [exact Hgood |].
  apply (Hbad "pw"%string); [discriminate | reflexivity].
Defined.
